(** * pubsubmsgrestforwarder: a shallow embedding of main.go

    The program receives Pub/Sub messages, turns each into the push
    envelope of [PubSubMessage] ([transformMessage]), POSTs it to a URL
    ([sendPOST]) and acks or nacks the message ([consumeMessages]).

    The Go standard library calls the program makes are written out
    where a claim depends on them: [base64.StdEncoding.EncodeToString],
    [time.Time.Format] with the layout [time.RFC3339], and the shape
    of the JSON document [json.Marshal] produces.  The network and the
    Pub/Sub client are left abstract (Section variables). *)

From Stdlib Require Import ZArith Lia List String Ascii Bool.
From Stdlib Require Import Strings.Byte Permutation Sorting.Sorted.
Import ListNotations.
Open Scope string_scope.
Open Scope Z_scope.

(* ------------------------------------------------------------------ *)
(** ** Bytes *)

(** A Go [byte] read as an unsigned integer, [uint(b)]. *)
Definition byteZ (b : byte) : Z := Z.of_N (Byte.to_N b).

(** Go's conversion [byte(x)]: keeps the low eight bits. *)
Definition byte_of_Z (z : Z) : byte :=
  match Byte.of_N (Z.to_N (Z.land z 255)) with
  | Some b => b
  | None => x00
  end.

(* ------------------------------------------------------------------ *)
(** ** encoding/base64, StdEncoding *)

Module Base64.

(** [encodeStd], the alphabet of RFC 4648 §4. *)
Definition encodeStd : string :=
  "ABCDEFGHIJKLMNOPQRSTUVWXYZabcdefghijklmnopqrstuvwxyz0123456789+/".

(** [StdPadding] *)
Definition StdPadding : ascii := "=".

(** [enc.encode[i]] *)
Definition encode_at (i : Z) : ascii :=
  match String.get (Z.to_nat i) encodeStd with
  | Some c => c
  | None => StdPadding
  end.

(** [Encoding.Encode] followed by [string(...)], i.e. [EncodeToString]:
    whole groups of three bytes give four characters; a remainder of
    one or two bytes gives a padded final group. *)
Fixpoint EncodeToString (src : list byte) : string :=
  match src with
  | b0 :: b1 :: b2 :: rest =>
      let val := Z.lor (Z.lor (Z.shiftl (byteZ b0) 16) (Z.shiftl (byteZ b1) 8))
                       (byteZ b2) in
      String (encode_at (Z.land (Z.shiftr val 18) 63))
      (String (encode_at (Z.land (Z.shiftr val 12) 63))
      (String (encode_at (Z.land (Z.shiftr val 6) 63))
      (String (encode_at (Z.land val 63))
        (EncodeToString rest))))
  | [b0; b1] =>
      let val := Z.lor (Z.shiftl (byteZ b0) 16) (Z.shiftl (byteZ b1) 8) in
      String (encode_at (Z.land (Z.shiftr val 18) 63))
      (String (encode_at (Z.land (Z.shiftr val 12) 63))
      (String (encode_at (Z.land (Z.shiftr val 6) 63))
      (String StdPadding EmptyString)))
  | [b0] =>
      let val := Z.shiftl (byteZ b0) 16 in
      String (encode_at (Z.land (Z.shiftr val 18) 63))
      (String (encode_at (Z.land (Z.shiftr val 12) 63))
      (String StdPadding (String StdPadding EmptyString)))
  | [] => EmptyString
  end.

(** [decodeMap]: position of a character in the alphabet. *)
Fixpoint index_of (c : ascii) (s : string) (i : Z) : option Z :=
  match s with
  | EmptyString => None
  | String c' s' => if Ascii.eqb c c' then Some i else index_of c s' (i + 1)
  end.

Definition decode_at (c : ascii) : option Z := index_of c encodeStd 0.

(** [decodeQuantum]'s recombination of four sextets (missing ones are
    the zero of [dbuf]). *)
Definition quantum (s0 s1 s2 s3 : Z) : Z :=
  Z.lor (Z.lor (Z.lor (Z.shiftl s0 18) (Z.shiftl s1 12)) (Z.shiftl s2 6)) s3.

(** [StdEncoding.DecodeString] on input without line breaks (the
    decoder of a receiver of the envelope): groups of four characters,
    the last one possibly padded with one or two [=]. *)
Fixpoint DecodeString (s : string) : option (list byte) :=
  match s with
  | EmptyString => Some []
  | String c0 (String c1 (String c2 (String c3 rest))) =>
      match decode_at c0, decode_at c1 with
      | Some s0, Some s1 =>
          if Ascii.eqb c2 StdPadding then
            if Ascii.eqb c3 StdPadding then
              match rest with
              | EmptyString =>
                  Some [byte_of_Z (Z.shiftr (quantum s0 s1 0 0) 16)]
              | _ => None
              end
            else None
          else
            match decode_at c2 with
            | None => None
            | Some s2 =>
                if Ascii.eqb c3 StdPadding then
                  match rest with
                  | EmptyString =>
                      let val := quantum s0 s1 s2 0 in
                      Some [byte_of_Z (Z.shiftr val 16); byte_of_Z (Z.shiftr val 8)]
                  | _ => None
                  end
                else
                  match decode_at c3 with
                  | None => None
                  | Some s3 =>
                      let val := quantum s0 s1 s2 s3 in
                      match DecodeString rest with
                      | Some bs =>
                          Some (byte_of_Z (Z.shiftr val 16) :: byte_of_Z (Z.shiftr val 8)
                                  :: byte_of_Z val :: bs)
                      | None => None
                      end
                  end
            end
      | _, _ => None
      end
  | _ => None
  end.

End Base64.

(* ------------------------------------------------------------------ *)
(** ** time.Time and [Format(time.RFC3339)] *)

Module GoTime.

(** A [time.Time] as [Format] reads it: the civil date and clock in
    the time's location ([t.Date()], [t.Clock()]), the nanoseconds
    ([t.Nanosecond()]) and the zone offset in seconds east of UTC. *)
Record Time := {
  year : Z; month : Z; day : Z;
  hour : Z; minute : Z; second : Z;
  nanosecond : Z;
  offset : Z
}.

(** [utod]: a digit 0..9 as its ASCII character. *)
Definition utod (u : Z) : ascii := ascii_of_nat (48 + Z.to_nat u).

(** The digits of [u] in decimal, most significant first, prepended to
    [acc] (the reverse-order loop of [appendInt]); an [int] has at most
    twenty decimal digits. *)
Fixpoint decimal (fuel : nat) (u : Z) (acc : list ascii) : list ascii :=
  match fuel with
  | O => utod u :: acc
  | S f => if u <? 10 then utod u :: acc
           else decimal f (u / 10) (utod (u mod 10) :: acc)
  end.

(** [appendInt(b, x, width)] without [b]: sign, zero padding to
    [width], decimal digits, with the fast paths for two and four
    digits. *)
Definition appendInt (x width : Z) : list ascii :=
  let sign := if x <? 0 then ["-"%char] else [] in
  let u := Z.abs x in
  (sign ++
  (if (width =? 2) && (u <? 100) then [utod (u / 10); utod (u mod 10)]
   else if (width =? 4) && (u <? 10000) then
     [utod (u / 1000); utod (u / 100 mod 10); utod (u / 10 mod 10); utod (u mod 10)]
   else
     let digits := decimal 20 u [] in
     repeat "0"%char (Nat.sub (Z.to_nat width) (List.length digits)) ++ digits))%list.

(** [appendFormatRFC3339(b, false)], the path [t.Format(time.RFC3339)]
    takes ("2006-01-02T15:04:05Z07:00"): the fractional seconds are not
    written. *)
Definition appendFormatRFC3339 (t : Time) : list ascii :=
  (appendInt (year t) 4 ++ ["-"%char] ++
  appendInt (month t) 2 ++ ["-"%char] ++
  appendInt (day t) 2 ++ ["T"%char] ++
  appendInt (hour t) 2 ++ [":"%char] ++
  appendInt (minute t) 2 ++ [":"%char] ++
  appendInt (second t) 2 ++
  (if offset t =? 0 then ["Z"%char]
   else
     let zone := Z.quot (offset t) 60 in
     let '(sign, zone) := if zone <? 0 then ("-"%char, - zone) else ("+"%char, zone) in
     [sign] ++ appendInt (zone / 60) 2 ++ [":"%char] ++ appendInt (zone mod 60) 2))%list.

Definition Format_RFC3339 (t : Time) : string :=
  string_of_list_ascii (appendFormatRFC3339 t).

(** The range of a valid time: a civil date and clock as Go keeps them,
    a year within the range of a protobuf [Timestamp] (the type Pub/Sub
    gives [publish_time]), and a zone offset of less than a day. *)
Definition leap (y : Z) : bool :=
  (y mod 4 =? 0) && (negb (y mod 100 =? 0) || (y mod 400 =? 0)).

Definition days_in_month (y m : Z) : Z :=
  if m =? 2 then (if leap y then 29 else 28)
  else if (m =? 4) || (m =? 6) || (m =? 9) || (m =? 11) then 30 else 31.

Definition valid (t : Time) : Prop :=
  1 <= year t <= 9999 /\ 1 <= month t <= 12 /\ 1 <= day t <= days_in_month (year t) (month t) /\
  0 <= hour t < 24 /\ 0 <= minute t < 60 /\ 0 <= second t < 60 /\
  0 <= nanosecond t < 1000000000 /\ - 86400 < offset t < 86400.

End GoTime.

(* ------------------------------------------------------------------ *)
(** ** RFC 3339, section 5.6, read from the RFC

    [date-time = full-date "T" full-time], with [full-date =
    date-fullyear "-" date-month "-" date-mday], [full-time =
    partial-time time-offset], [partial-time = time-hour ":"
    time-minute ":" time-second [time-secfrac]], [time-offset = "Z" /
    time-numoffset], [time-numoffset = ("+" / "-") time-hour ":"
    time-minute]; "T" and "Z" may be lower case.  The ranges are those
    of the RFC: month 01-12, mday 01-28/29/30/31 by month and year,
    hour 00-23, minute 00-59, second 00-60. *)
Module RFC3339.

Definition is_digit (c : ascii) : bool :=
  (48 <=? nat_of_ascii c)%nat && (nat_of_ascii c <=? 57)%nat.

Definition dval (c : ascii) : Z := Z.of_nat (nat_of_ascii c) - 48.

Definition num2 (a b : ascii) : Z := dval a * 10 + dval b.

Definition num4 (a b c d : ascii) : Z := num2 a b * 100 + num2 c d.

Definition is_char (c : ascii) (s : list ascii) : bool :=
  existsb (Ascii.eqb c) s.

Definition time_offset (l : list ascii) : bool :=
  match l with
  | [z] => is_char z ["Z"; "z"]%char
  | [sg; h1; h2; col; m1; m2] =>
      is_char sg ["+"; "-"]%char && Ascii.eqb col ":"%char &&
      forallb is_digit [h1; h2; m1; m2] &&
      (num2 h1 h2 <=? 23) && (num2 m1 m2 <=? 59)
  | _ => false
  end.

Fixpoint take_digits (l : list ascii) : list ascii * list ascii :=
  match l with
  | c :: l' => if is_digit c then let '(ds, r) := take_digits l' in (c :: ds, r)
               else ([], l)
  | [] => ([], [])
  end.

(** [[time-secfrac] time-offset] *)
Definition secfrac_offset (l : list ascii) : bool :=
  match l with
  | c :: rest =>
      if Ascii.eqb c "."%char then
        let '(ds, r) := take_digits rest in
        negb (List.length ds =? 0)%nat && time_offset r
      else time_offset l
  | [] => false
  end.

Definition date_time (l : list ascii) : bool :=
  match l with
  | y1 :: y2 :: y3 :: y4 :: dash1 :: m1 :: m2 :: dash2 :: d1 :: d2 :: t ::
    h1 :: h2 :: col1 :: i1 :: i2 :: col2 :: s1 :: s2 :: rest =>
      forallb is_digit [y1; y2; y3; y4; m1; m2; d1; d2; h1; h2; i1; i2; s1; s2] &&
      Ascii.eqb dash1 "-"%char && Ascii.eqb dash2 "-"%char &&
      is_char t ["T"; "t"]%char &&
      Ascii.eqb col1 ":"%char && Ascii.eqb col2 ":"%char &&
      (1 <=? num2 m1 m2) && (num2 m1 m2 <=? 12) &&
      (1 <=? num2 d1 d2) &&
      (num2 d1 d2 <=? GoTime.days_in_month (num4 y1 y2 y3 y4) (num2 m1 m2)) &&
      (num2 h1 h2 <=? 23) && (num2 i1 i2 <=? 59) && (num2 s1 s2 <=? 60) &&
      secfrac_offset rest
  | _ => false
  end.

End RFC3339.

(* ------------------------------------------------------------------ *)
(** ** Data model *)

(** A Go [map[string]string]: [None] is the nil map, [Some kvs] a map
    with the (pairwise distinct) keys of [kvs]. *)
Definition GoMap := option (list (string * string)).

(** [Config] *)
Record Config := {
  Project : string;
  Subscription : string;
  URL : string
}.

(** The fields of [*pubsub.Message] the program reads. *)
Module pubsub.
Record Message := {
  ID : string;
  Data : list byte;
  Attributes : GoMap;
  OrderingKey : string;
  PublishTime : GoTime.Time
}.
End pubsub.

(** [PubSubMessage] and its anonymous [Message] struct. *)
Module Envelope.
Record MessageStruct := {
  Attributes : GoMap;
  Data : string;
  MessageID : string;
  OrderingKey : string;
  PublishTime : string
}.
Record PubSubMessage := {
  Message : MessageStruct;
  Subscription : string
}.
End Envelope.

(** [transformMessage] *)
Definition transformMessage (msg : pubsub.Message) (cfg : Config) : Envelope.PubSubMessage :=
  {| Envelope.Message :=
       {| Envelope.Attributes := pubsub.Attributes msg;
          Envelope.Data := Base64.EncodeToString (pubsub.Data msg);
          Envelope.MessageID := pubsub.ID msg;
          Envelope.OrderingKey := pubsub.OrderingKey msg;
          Envelope.PublishTime := GoTime.Format_RFC3339 (pubsub.PublishTime msg) |};
     Envelope.Subscription :=
       "projects/" ++ Project cfg ++ "/subscriptions/" ++ Subscription cfg |}.

(* ------------------------------------------------------------------ *)
(** ** encoding/json *)

(** The JSON values the envelope's document is made of; an object keeps
    its members in the order they are written. *)
#[warnings="-register-all"]
Inductive json :=
| JNull
| JString (s : string)
| JObject (members : list (string * json)).

(** Map keys are written in increasing byte order ([strings.Compare]). *)
Fixpoint insert_key (kv : string * string) (kvs : list (string * string)) :=
  match kvs with
  | [] => [kv]
  | kv' :: rest =>
      match String.compare (fst kv) (fst kv') with
      | Gt => kv' :: insert_key kv rest
      | _ => kv :: kvs
      end
  end.

Definition sort_keys (kvs : list (string * string)) : list (string * string) :=
  fold_right insert_key [] kvs.

(** A [map[string]string]: a nil map is [null], any other map an object. *)
Definition marshal_map (m : GoMap) : json :=
  match m with
  | None => JNull
  | Some kvs => JObject (map (fun kv => (fst kv, JString (snd kv))) (sort_keys kvs))
  end.

(** [json.Marshal(payload)] as a document: the struct fields in
    declaration order under their [json] tag names; [orderingKey] has
    [omitempty] and is left out when empty. *)
Definition marshal (p : Envelope.PubSubMessage) : json :=
  let m := Envelope.Message p in
  JObject
    [("message",
       JObject
         ([("attributes", marshal_map (Envelope.Attributes m));
           ("data", JString (Envelope.Data m));
           ("messageId", JString (Envelope.MessageID m))] ++
          (if String.eqb (Envelope.OrderingKey m) EmptyString then []
           else [("orderingKey", JString (Envelope.OrderingKey m))]) ++
          [("publishTime", JString (Envelope.PublishTime m))])%list);
     ("subscription", JString (Envelope.Subscription p))].

(* ------------------------------------------------------------------ *)
(** ** Errors, HTTP and the acknowledgement handles *)

(** Go [error] values: the sentinel [context.Canceled], an error with a
    message only, and the error [fmt.Errorf("<prefix>: %w", inner)]. *)
Inductive error :=
| ContextCanceled
| ErrorString (s : string)
| Wrapped (prefix : string) (inner : error).

Fixpoint Error (e : error) : string :=
  match e with
  | ContextCanceled => "context canceled"
  | ErrorString s => s
  | Wrapped p inner => p ++ ": " ++ Error inner
  end.

(** A Go pair [(T, error)]. *)
Inductive result (A : Type) :=
| Ok (a : A)
| Err (e : error).
Arguments Ok {A} a.
Arguments Err {A} e.

Record Request := {
  Method : string;
  ReqURL : string;
  Header : list (string * string);
  Body : json
}.

(** [req.Header.Set(k, v)] *)
Definition header_set (k v : string) (r : Request) : Request :=
  {| Method := Method r; ReqURL := ReqURL r; Body := Body r;
     Header := (k, v) :: filter (fun kv => negb (String.eqb (fst kv) k)) (Header r) |}.

(** [resp.StatusCode] and [resp.Status] (e.g. "500 Internal Server Error"). *)
Record Response := {
  StatusCode : Z;
  Status : string
}.

(** [http.Client]: only the timeout, in seconds. *)
Record Client := { Timeout : Z }.

Inductive AckKind := Acked | Nacked.

(** What the program does to the world: the lines it logs and, in
    order, the [Ack]/[Nack] calls on the messages' handles. *)
Record World := {
  logs : list string;
  acks : list (string * AckKind)
}.

Definition M (A : Type) := World -> A * World.
Definition ret {A} (a : A) : M A := fun w => (a, w).
Definition bind {A B} (m : M A) (k : A -> M B) : M B :=
  fun w => let '(a, w') := m w in k a w'.
Notation "x <- m ;; k" := (bind m (fun x => k))
  (at level 61, m at next level, right associativity).
Notation "m ;;; k" := (bind m (fun _ => k)) (at level 61, right associativity).

(** [log.Println] / [log.Printf] *)
Definition log (s : string) : M unit :=
  fun w => (tt, {| logs := logs w ++ [s]; acks := acks w |}%list).

(** [msg.Ack()] and [msg.Nack()] *)
Definition handle (id : string) (k : AckKind) : M unit :=
  fun w => (tt, {| logs := logs w; acks := acks w ++ [(id, k)] |}%list).

(* ------------------------------------------------------------------ *)
(** ** sendPOST and consumeMessages *)

Section Program.

(** The library calls the program makes: [json.Marshal] of the
    envelope, [http.NewRequest(method, url, body)] and [client.Do]. *)
Variable json_Marshal : Envelope.PubSubMessage -> result json.
Variable NewRequest : string -> string -> json -> result Request.
Variable Do : Client -> Request -> result Response.

(** [sendPOST]: [None] is the nil error. *)
Definition sendPOST (url : string) (payload : Envelope.PubSubMessage) : M (option error) :=
  match json_Marshal payload with
  | Err e => ret (Some (Wrapped "failed to marshal JSON payload" e))
  | Ok jsonData =>
      match NewRequest "POST" url jsonData with
      | Err e => ret (Some (Wrapped "failed to create POST request" e))
      | Ok req =>
          let req := header_set "Content-Type" "application/json" req in
          let client := {| Timeout := 10 |} in
          match Do client req with
          | Err e => ret (Some (Wrapped "POST request failed" e))
          | Ok resp =>
              if (200 <=? StatusCode resp) && (StatusCode resp <? 300) then
                log "Message processed successfully." ;;;
                ret None
              else
                ret (Some (ErrorString
                  ("failed to process message. HTTP Status: " ++ Status resp)))
          end
      end
  end.

(** The callback [consumeMessages] passes to [sub.Receive]. *)
Definition callback (cfg : Config) (msg : pubsub.Message) : M unit :=
  let transformed := transformMessage msg cfg in
  err <- sendPOST (URL cfg) transformed ;;
  match err with
  | Some e =>
      log ("Error processing message ID " ++ pubsub.ID msg ++ ": " ++ Error e) ;;;
      handle (pubsub.ID msg) Nacked
  | None => handle (pubsub.ID msg) Acked
  end.

Fixpoint run_each (f : pubsub.Message -> M unit) (msgs : list pubsub.Message) : M unit :=
  match msgs with
  | [] => ret tt
  | m :: rest => f m ;;; run_each f rest
  end.

(** [sub.Receive(ctx, f)], the subscription service: it calls [f] on
    each message it delivers, [deliveries], and then returns
    [termination] (nil, [context.Canceled] once [ctx] is cancelled, or
    another error).  Both are the service's behaviour, taken as inputs. *)
Definition Receive (deliveries : list pubsub.Message) (termination : option error)
    (f : pubsub.Message -> M unit) : M (option error) :=
  run_each f deliveries ;;; ret termination.

(** [err != context.Canceled], a comparison of interface values. *)
Definition is_Canceled (e : error) : bool :=
  match e with ContextCanceled => true | _ => false end.

(** [consumeMessages] *)
Definition consumeMessages (deliveries : list pubsub.Message) (termination : option error)
    (cfg : Config) : M (option error) :=
  err <- Receive deliveries termination (callback cfg) ;;
  match err with
  | Some e =>
      if negb (is_Canceled e) then ret (Some (Wrapped "error receiving messages" e))
      else ret None
  | None => ret None
  end.

End Program.

(** [json.Marshal] on a [PubSubMessage] never fails: every field is a
    string or a [map[string]string]. *)
Definition json_Marshal (p : Envelope.PubSubMessage) : result json := Ok (marshal p).

(** Reading a member of a JSON object (the first one with that name). *)
Definition members (j : json) : list (string * json) :=
  match j with JObject ms => ms | _ => [] end.

Fixpoint lookup (k : string) (ms : list (string * json)) : option json :=
  match ms with
  | [] => None
  | (k', v) :: rest => if String.eqb k k' then Some v else lookup k rest
  end.

Definition field (k : string) (j : json) : option json := lookup k (members j).

(** The member [k] of the ["message"] object of a document. *)
Definition message_field (k : string) (doc : json) : option json :=
  match field "message" doc with
  | Some m => field k m
  | None => None
  end.

(** The acknowledgement the callback gives [msg]: [Acked] exactly when
    [sendPOST] returns the nil error ([sendPOST]'s error does not depend
    on the world, which it only appends log lines to). *)
Definition decision json_Marshal NewRequest Do (cfg : Config) (msg : pubsub.Message) : AckKind :=
  match fst (sendPOST json_Marshal NewRequest Do (URL cfg) (transformMessage msg cfg)
               {| logs := []; acks := [] |}) with
  | None => Acked
  | Some _ => Nacked
  end.

(** [strings.Contains(s, "/")] *)
Definition has_slash (s : string) : bool :=
  existsb (Ascii.eqb "/"%char) (list_ascii_of_string s).

(** Sample inputs: the message and configuration of the end-to-end
    example of the spec, and two configurations whose project contains
    a slash. *)
Definition hello_msg : pubsub.Message :=
  {| pubsub.ID := "m1";
     pubsub.Data := list_byte_of_string "hello";
     pubsub.Attributes := Some [("k", "v")];
     pubsub.OrderingKey := EmptyString;
     pubsub.PublishTime := {| GoTime.year := 2024; GoTime.month := 1; GoTime.day := 1;
                              GoTime.hour := 0; GoTime.minute := 0; GoTime.second := 0;
                              GoTime.nanosecond := 0; GoTime.offset := 0 |} |}.

Definition cfg_pxy : Config := {| Project := "p"; Subscription := "s"; URL := "http://x/y" |}.

Definition cfg_slash1 : Config :=
  {| Project := "a/subscriptions/b"; Subscription := "c"; URL := "http://localhost:8080" |}.

Definition cfg_slash2 : Config :=
  {| Project := "a"; Subscription := "b/subscriptions/c"; URL := "http://localhost:8080" |}.

(** The same message published 0.999999999 s later within the same second. *)
Definition hello_msg_late : pubsub.Message :=
  {| pubsub.ID := "m1";
     pubsub.Data := list_byte_of_string "hello";
     pubsub.Attributes := Some [("k", "v")];
     pubsub.OrderingKey := EmptyString;
     pubsub.PublishTime := {| GoTime.year := 2024; GoTime.month := 1; GoTime.day := 1;
                              GoTime.hour := 0; GoTime.minute := 0; GoTime.second := 0;
                              GoTime.nanosecond := 999999999; GoTime.offset := 0 |} |}.

(** A sample HTTP environment: requests are always built, and the
    server answers every POST with status 500. *)
Definition newRequest_ok (meth url : string) (body : json) : result Request :=
  Ok {| Method := meth; ReqURL := url; Header := []; Body := body |}.

Definition do_500 (c : Client) (r : Request) : result Response :=
  Ok {| StatusCode := 500; Status := "500 Internal Server Error" |}.

Definition empty_world : World := {| logs := []; acks := [] |}.

(* ------------------------------------------------------------------ *)
(** ** The flag package: [flag.Parse] on string flags *)

Module Flag.

(** The flags [parseFlags] defines with [flag.String], with their
    defaults. *)
Definition defaults : list (string * string) :=
  [("project", EmptyString); ("subscription", EmptyString);
   ("url", "http://localhost:8080")].

Fixpoint get (k : string) (vals : list (string * string)) : option string :=
  match vals with
  | [] => None
  | (k', v) :: rest => if String.eqb k k' then Some v else get k rest
  end.

(** [flag.Value.Set] of a string flag. *)
Fixpoint set (k v : string) (vals : list (string * string)) : list (string * string) :=
  match vals with
  | [] => []
  | (k', v') :: rest => if String.eqb k k' then (k', v) :: rest else (k', v') :: set k v rest
  end.

(** The split of a flag name at its first [=] ([name[0:i]], [name[i+1:]]). *)
Fixpoint split_eq (s : string) : string * option string :=
  match s with
  | EmptyString => (EmptyString, None)
  | String c r =>
      if Ascii.eqb c "="%char then (EmptyString, Some r)
      else let '(n, v) := split_eq r in (String c n, v)
  end.

(** How [FlagSet.Parse] ends: the flags' values and the remaining
    arguments, [ErrHelp], or another error (its message). *)
Inductive outcome :=
| Parsed (vals : list (string * string)) (args : list string)
| Help
| Fail (msg : string).

(** The loop of [FlagSet.Parse] over [FlagSet.parseOne], for a set of
    flags that are all string flags. *)
Fixpoint parse (args : list string) (vals : list (string * string)) : outcome :=
  match args with
  | [] => Parsed vals []
  | s :: rest =>
      match s with
      | String c0 (String c1 r) =>
          if negb (Ascii.eqb c0 "-"%char) then Parsed vals args
          else
            let dd := Ascii.eqb c1 "-"%char in
            if dd && String.eqb r EmptyString then Parsed vals rest
            else
              let name := if dd then r else String c1 r in
              match name with
              | EmptyString => Fail ("bad flag syntax: " ++ s)
              | String n0 _ =>
                  if Ascii.eqb n0 "-"%char || Ascii.eqb n0 "="%char then
                    Fail ("bad flag syntax: " ++ s)
                  else
                    let '(nm, value) := split_eq name in
                    match get nm vals with
                    | None =>
                        if String.eqb nm "help" || String.eqb nm "h" then Help
                        else Fail ("flag provided but not defined: -" ++ nm)
                    | Some _ =>
                        match value with
                        | Some v => parse rest (set nm v vals)
                        | None =>
                            match rest with
                            | v :: rest' => parse rest' (set nm v vals)
                            | [] => Fail ("flag needs an argument: -" ++ nm)
                            end
                        end
                    end
              end
      | _ => Parsed vals args
      end
  end.

End Flag.

(** The end of [parseFlags]: the process exits inside [flag.Parse]
    ([flag.CommandLine] is [ExitOnError]: status 0 on [-h]/[-help], 2 on
    any other error), or [parseFlags] returns. *)
Inductive FlagsOutcome :=
| FlagsExit (code : Z)
| FlagsDone (r : result Config).

(** [parseFlags], on the command-line arguments [os.Args[1:]]. *)
Definition parseFlags (args : list string) : FlagsOutcome :=
  match Flag.parse args Flag.defaults with
  | Flag.Help => FlagsExit 0
  | Flag.Fail _ => FlagsExit 2
  | Flag.Parsed vals _ =>
      let project := match Flag.get "project" vals with Some v => v | None => EmptyString end in
      let subscription :=
        match Flag.get "subscription" vals with Some v => v | None => EmptyString end in
      let url := match Flag.get "url" vals with Some v => v | None => EmptyString end in
      if String.eqb project EmptyString then
        FlagsDone (Err (ErrorString "missing required argument: --project"))
      else if String.eqb subscription EmptyString then
        FlagsDone (Err (ErrorString "missing required argument: --subscription"))
      else
        FlagsDone (Ok {| Project := project; Subscription := subscription; URL := url |})
  end.

(** Command lines made of occurrences of flags, to state properties of
    [parseFlags]: the four ways [parseOne] accepts a string flag,
    [-name=value], [--name=value], [-name value] and [--name value]. *)
Inductive flag_form := EqShort | EqLong | SepShort | SepLong.

Definition occurrence (f : flag_form) (nm v : string) : list string :=
  match f with
  | EqShort => [("-" ++ nm ++ "=" ++ v)%string]
  | EqLong => [("--" ++ nm ++ "=" ++ v)%string]
  | SepShort => [("-" ++ nm)%string; v]
  | SepLong => [("--" ++ nm)%string; v]
  end.

Definition occurrences (os : list (flag_form * string * string)) : list string :=
  List.concat (map (fun o => occurrence (fst (fst o)) (snd (fst o)) (snd o)) os).

(** The names of the flags [parseFlags] defines. *)
Definition program_flags : list string := ["project"; "subscription"; "url"].

(* ------------------------------------------------------------------ *)
(** ** setupPubSubClient and main *)

(** The process: the world of the consumption loop, and how many
    Pub/Sub clients it has created and closed. *)
Record Process := {
  pworld : World;
  opened : nat;
  closed : nat
}.

Definition plog (s : string) (p : Process) : Process :=
  {| pworld := {| logs := (logs (pworld p) ++ [s])%list; acks := acks (pworld p) |};
     opened := opened p; closed := closed p |}.

Definition popen (p : Process) : Process :=
  {| pworld := pworld p; opened := S (opened p); closed := closed p |}.

Definition pclose (p : Process) : Process :=
  {| pworld := pworld p; opened := opened p; closed := S (closed p) |}.

(** The line [handleShutdown] logs when it receives [os.Interrupt],
    before it calls [cancel()]. *)
Definition handleShutdown_line : string :=
  "Shutdown signal received. Initiating graceful shutdown...".

Section Main.

Variable json_Marshal : Envelope.PubSubMessage -> result json.
Variable NewRequest : string -> string -> json -> result Request.
Variable Do : Client -> Request -> result Response.

(** The Pub/Sub library: [pubsub.NewClient(ctx, project)],
    [sub.Exists(ctx)] and [client.Close()]. *)
Variable PubSubClient : Type.
Variable NewClient : string -> result PubSubClient.
Variable Exists : PubSubClient -> string -> result bool.
Variable Close : PubSubClient -> result unit.

(** What [sub.Receive] does in the run (see [Receive]). *)
Variable deliveries : list pubsub.Message.
Variable termination : option error.

(** [setupPubSubClient] *)
Definition setupPubSubClient (cfg : Config) (p : Process) : result PubSubClient * Process :=
  match NewClient (Project cfg) with
  | Err e => (Err (Wrapped "failed to create Pub/Sub client" e), p)
  | Ok client =>
      let p := popen p in
      match Exists client (Subscription cfg) with
      | Err e => (Err (Wrapped "failed to verify subscription existence" e), pclose p)
      | Ok false =>
          (Err (ErrorString ("subscription " ++ Subscription cfg ++ " does not exist")), pclose p)
      | Ok true =>
          (Ok client, plog ("Connected to Pub/Sub subscription: " ++ Subscription cfg) p)
      end
  end.

(** The main goroutine of [main] (with the callbacks it runs): its exit
    status and the process at exit.  [log.Fatalf] logs and exits with
    status 1 without running the deferred calls; returning from [main]
    runs them ([client.Close()], then [cancel()]) and exits with
    status 0. *)
Definition main_thread (args : list string) (p : Process) : Z * Process :=
  match parseFlags args with
  | FlagsExit code => (code, p)
  | FlagsDone (Err e) => (1, plog ("Argument parsing error: " ++ Error e) p)
  | FlagsDone (Ok cfg) =>
      let p := plog ("Starting Pub/Sub Tester. Project: " ++ Project cfg ++
                     ", Subscription: " ++ Subscription cfg ++ ", POST URL: " ++ URL cfg) p in
      let '(r, p) := setupPubSubClient cfg p in
      match r with
      | Err e => (1, plog ("Pub/Sub setup error: " ++ Error e) p)
      | Ok client =>
          let '(err, w) :=
            consumeMessages json_Marshal NewRequest Do deliveries termination cfg (pworld p) in
          let p := {| pworld := w; opened := opened p; closed := closed p |} in
          match err with
          | Some e => (1, plog ("Message consumption error: " ++ Error e) p)
          | None =>
              let p := plog "Graceful shutdown complete. Exiting application." p in
              let p := pclose p in
              match Close client with
              | Err e => (0, plog ("Error closing Pub/Sub client: " ++ Error e) p)
              | Ok _ => (0, p)
              end
          end
      end
  end.


(** When an interrupt arrives: [None] when [handleShutdown] does not
    get to log before the process exits, [Some k] when it logs its line
    after the first [k] lines logged after the start line (the goroutine
    is started right after that line).  The cancellation it causes
    reaches the program through the results of the Pub/Sub calls and
    [termination]. *)
Variable signal : option nat.

(** [main]: the main goroutine and the [handleShutdown] goroutine,
    whose line is interleaved into the log. *)
Definition main (args : list string) (p : Process) : Z * Process :=
  let '(code, q) := main_thread args p in
  match parseFlags args, signal with
  | FlagsDone (Ok _), Some k =>
      let n := (List.length (logs (pworld p)) + 1 + k)%nat in
      if (n <=? List.length (logs (pworld q)))%nat then
        (code, {| pworld := {| logs := (firstn n (logs (pworld q)) ++
                                        handleShutdown_line :: skipn n (logs (pworld q)))%list;
                               acks := acks (pworld q) |};
                  opened := opened q; closed := closed q |})
      else (code, q)
  | _, _ => (code, q)
  end.

End Main.

Definition start : Process := {| pworld := empty_world; opened := 0; closed := 0 |}.

(** A sample run: the server answers every POST with 200, and a
    Pub/Sub backend where every client is created, every subscription
    exists and closing succeeds. *)
Definition do_200 (c : Client) (r : Request) : result Response :=
  Ok {| StatusCode := 200; Status := "200 OK" |}.

Definition newClient_ok (project : string) : result unit := Ok tt.

Definition exists_yes (c : unit) (sub : string) : result bool := Ok true.

Definition close_ok (c : unit) : result unit := Ok tt.

Definition args_pxy : list string := ["-project=p"; "-subscription=s"; "-url=http://x/y"].

(** The order [json.Marshal] sorts map keys by. *)
Definition key_le (a b : string * string) : Prop := String.compare (fst a) (fst b) <> Gt.

(* ================================================================== *)
(** * Proofs *)

(** ** Concrete runs *)

Example base64_hello :
  Base64.EncodeToString (list_byte_of_string "hello") = "aGVsbG8=".
Proof. reflexivity. Qed.

Example base64_rfc4648_vectors :
  map (fun s => Base64.EncodeToString (list_byte_of_string s))
      ["f"; "fo"; "foo"; "foob"; "fooba"; "foobar"] =
  ["Zg=="; "Zm8="; "Zm9v"; "Zm9vYg=="; "Zm9vYmE="; "Zm9vYmFy"].
Proof. reflexivity. Qed.

Example base64_hello_back :
  Base64.DecodeString "aGVsbG8=" = Some (list_byte_of_string "hello").
Proof. reflexivity. Qed.

(** ** Arithmetic of the bit manipulations *)

Lemma lor_disjoint (x y k : Z) :
  0 <= k -> x mod 2 ^ k = 0 -> 0 <= y < 2 ^ k -> Z.lor x y = x + y.
Proof.
  intros Hk Hx Hy.
  assert (Hland : Z.land x y = 0).
  { apply Z.bits_inj'; intros n Hn.
    rewrite Z.land_spec, Z.bits_0.
    destruct (Z.lt_ge_cases n k) as [Hlt | Hge].
    - rewrite (Z.div_mod x (2 ^ k)) by (apply Z.pow_nonzero; lia).
      rewrite Hx, Z.add_0_r, Z.mul_comm, Z.mul_pow2_bits_low by lia.
      reflexivity.
    - rewrite <- (Z.mod_small y (2 ^ k)) by lia.
      rewrite Z.mod_pow2_bits_high by lia.
      apply andb_false_r. }
  rewrite <- Z.lxor_lor by exact Hland.
  symmetry; apply Z.add_nocarry_lxor; exact Hland.
Qed.

Lemma byteZ_range (b : byte) : 0 <= byteZ b < 256.
Proof.
  unfold byteZ. pose proof (Byte.to_N_bounded b). lia.
Qed.

Lemma byte_of_Z_byteZ (b : byte) (z : Z) : z mod 256 = byteZ b -> byte_of_Z z = b.
Proof.
  intros Hz. unfold byte_of_Z.
  replace 255 with (Z.ones 8) by reflexivity.
  rewrite Z.land_ones by lia. change (2 ^ 8) with 256. rewrite Hz.
  unfold byteZ. rewrite N2Z.id, Byte.of_to_N. reflexivity.
Qed.

Lemma shiftr_land63 (v k : Z) : 0 <= k -> Z.land (Z.shiftr v k) 63 = (v / 2 ^ k) mod 64.
Proof.
  intros Hk. replace 63 with (Z.ones 6) by reflexivity.
  rewrite Z.land_ones, Z.shiftr_div_pow2 by lia. reflexivity.
Qed.

Lemma quantum_arith (s0 s1 s2 s3 : Z) :
  0 <= s0 < 64 -> 0 <= s1 < 64 -> 0 <= s2 < 64 -> 0 <= s3 < 64 ->
  Base64.quantum s0 s1 s2 s3 = s0 * 262144 + s1 * 4096 + s2 * 64 + s3.
Proof.
  intros H0 H1 H2 H3. unfold Base64.quantum.
  rewrite !Z.shiftl_mul_pow2 by lia.
  change (2 ^ 18) with 262144. change (2 ^ 12) with 4096. change (2 ^ 6) with 64.
  rewrite (lor_disjoint (s0 * 262144) (s1 * 4096) 18) by (cbn; Z.div_mod_to_equations; lia).
  rewrite (lor_disjoint (s0 * 262144 + s1 * 4096) (s2 * 64) 12) by (cbn; Z.div_mod_to_equations; lia).
  rewrite (lor_disjoint (s0 * 262144 + s1 * 4096 + s2 * 64) s3 6) by (cbn; Z.div_mod_to_equations; lia).
  reflexivity.
Qed.

Lemma land63 (x : Z) : Z.land x 63 = x mod 64.
Proof.
  replace 63 with (Z.ones 6) by reflexivity.
  rewrite Z.land_ones by lia. reflexivity.
Qed.

(** A finite range of integers checked by evaluation. *)
Lemma range_check (P : Z -> bool) (lo : Z) (n : nat) :
  forallb P (map (fun k => lo + Z.of_nat k) (seq 0 n)) = true ->
  forall z, lo <= z < lo + Z.of_nat n -> P z = true.
Proof.
  intros H z Hz. rewrite forallb_forall in H.
  replace z with (lo + Z.of_nat (Z.to_nat (z - lo))) by lia.
  apply H. apply (in_map (fun k => lo + Z.of_nat k)). apply in_seq. lia.
Qed.

(** ** Base64 round trip *)

Definition alphabet_ok (i : Z) : bool :=
  match Base64.decode_at (Base64.encode_at i) with
  | Some j => Z.eqb i j && negb (Ascii.eqb (Base64.encode_at i) Base64.StdPadding)
  | None => false
  end.

Lemma alphabet_ok_all (i : Z) : 0 <= i < 64 -> alphabet_ok i = true.
Proof. apply (range_check alphabet_ok 0 64). vm_compute. reflexivity. Qed.

Lemma decode_encode_at (x : Z) :
  Base64.decode_at (Base64.encode_at (Z.land x 63)) = Some (Z.land x 63).
Proof.
  pose proof (alphabet_ok_all (Z.land x 63)) as H.
  rewrite land63 in *. specialize (H ltac:(apply Z.mod_pos_bound; lia)).
  unfold alphabet_ok in H.
  destruct (Base64.decode_at _) as [j|]; [|discriminate].
  apply andb_prop in H as [H _]. apply Z.eqb_eq in H. subst j. reflexivity.
Qed.

Lemma encode_at_not_pad (x : Z) :
  Ascii.eqb (Base64.encode_at (Z.land x 63)) Base64.StdPadding = false.
Proof.
  pose proof (alphabet_ok_all (Z.land x 63)) as H.
  rewrite land63 in *. specialize (H ltac:(apply Z.mod_pos_bound; lia)).
  unfold alphabet_ok in H.
  destruct (Base64.decode_at _) as [j|]; [|discriminate].
  apply andb_prop in H as [_ H]. apply negb_true_iff in H. exact H.
Qed.

Lemma sextet_range (x : Z) : 0 <= Z.land x 63 < 64.
Proof. rewrite land63. apply Z.mod_pos_bound. lia. Qed.

Lemma group3_val (b0 b1 b2 : byte) :
  Z.lor (Z.lor (Z.shiftl (byteZ b0) 16) (Z.shiftl (byteZ b1) 8)) (byteZ b2)
  = byteZ b0 * 65536 + byteZ b1 * 256 + byteZ b2.
Proof.
  pose proof (byteZ_range b0); pose proof (byteZ_range b1); pose proof (byteZ_range b2).
  rewrite !Z.shiftl_mul_pow2 by lia.
  change (2 ^ 16) with 65536. change (2 ^ 8) with 256.
  rewrite (lor_disjoint (byteZ b0 * 65536) (byteZ b1 * 256) 16)
    by (cbn; Z.div_mod_to_equations; lia).
  rewrite (lor_disjoint (byteZ b0 * 65536 + byteZ b1 * 256) (byteZ b2) 8)
    by (cbn; Z.div_mod_to_equations; lia).
  reflexivity.
Qed.

Lemma group2_val (b0 b1 : byte) :
  Z.lor (Z.shiftl (byteZ b0) 16) (Z.shiftl (byteZ b1) 8)
  = byteZ b0 * 65536 + byteZ b1 * 256.
Proof.
  pose proof (byteZ_range b0); pose proof (byteZ_range b1).
  rewrite !Z.shiftl_mul_pow2 by lia.
  change (2 ^ 16) with 65536. change (2 ^ 8) with 256.
  apply (lor_disjoint _ _ 16); cbn; Z.div_mod_to_equations; lia.
Qed.

Ltac sextets :=
  rewrite ?decode_encode_at, ?encode_at_not_pad;
  rewrite ?quantum_arith by (apply sextet_range || lia);
  rewrite ?shiftr_land63, ?land63 by lia;
  rewrite ?Z.shiftr_div_pow2 by lia;
  cbn [Z.pow Z.pow_pos Pos.iter Z.mul Pos.mul].

Lemma DecodeString_EncodeToString (bs : list byte) :
  Base64.DecodeString (Base64.EncodeToString bs) = Some bs.
Proof.
  induction bs as [bs IH] using (well_founded_induction
    (Wf_nat.well_founded_ltof _ (@List.length byte))).
  destruct bs as [|b0 [|b1 [|b2 rest]]].
  - reflexivity.
  - pose proof (byteZ_range b0).
    cbn [Base64.EncodeToString Base64.DecodeString].
    rewrite Z.shiftl_mul_pow2 by lia. sextets. cbn.
    f_equal. f_equal. apply byte_of_Z_byteZ. Z.div_mod_to_equations. lia.
  - pose proof (byteZ_range b0); pose proof (byteZ_range b1).
    cbn [Base64.EncodeToString Base64.DecodeString].
    rewrite group2_val. sextets. cbn.
    f_equal. f_equal; [|f_equal]; apply byte_of_Z_byteZ;
      Z.div_mod_to_equations; lia.
  - pose proof (byteZ_range b0); pose proof (byteZ_range b1); pose proof (byteZ_range b2).
    cbn [Base64.EncodeToString Base64.DecodeString].
    rewrite group3_val. sextets.
    rewrite IH by (unfold Wf_nat.ltof; cbn; lia).
    f_equal. f_equal; [|f_equal; [|f_equal]]; apply byte_of_Z_byteZ;
      Z.div_mod_to_equations; lia.
Qed.

Example fmt1 : GoTime.Format_RFC3339 (GoTime.Build_Time 2024 1 1 0 0 0 5 0) = "2024-01-01T00:00:00Z".
Proof. reflexivity. Qed.
Example fmt2 : GoTime.Format_RFC3339 (GoTime.Build_Time 987 12 31 23 5 9 5 (-19800)) = "0987-12-31T23:05:09-05:30".
Proof. reflexivity. Qed.
Example fmt3 : GoTime.Format_RFC3339 (GoTime.Build_Time 12345 1 1 0 0 0 0 3600) = "12345-01-01T00:00:00+01:00".
Proof. reflexivity. Qed.
Example rfc1 : RFC3339.date_time (list_ascii_of_string "0987-12-31T23:05:09-05:30") = true.
Proof. reflexivity. Qed.
Example rfc2 : RFC3339.date_time (list_ascii_of_string "2023-02-29T23:05:09.5Z") = false.
Proof. reflexivity. Qed.
Example rfc3 : RFC3339.date_time (list_ascii_of_string "2024-02-29T23:05:60.123z") = true.
Proof. reflexivity. Qed.

(** ** Rendering of the publish time *)

Definition digit_ok (d : Z) : bool :=
  RFC3339.is_digit (GoTime.utod d) && Z.eqb (RFC3339.dval (GoTime.utod d)) d.

Lemma digit_ok_all (d : Z) : 0 <= d < 10 -> digit_ok d = true.
Proof. apply (range_check digit_ok 0 10). vm_compute. reflexivity. Qed.

Lemma is_digit_utod (d : Z) : 0 <= d < 10 -> RFC3339.is_digit (GoTime.utod d) = true.
Proof. intros H. apply digit_ok_all, andb_prop in H. tauto. Qed.

Lemma dval_utod (d : Z) : 0 <= d < 10 -> RFC3339.dval (GoTime.utod d) = d.
Proof. intros H. apply digit_ok_all, andb_prop in H as [_ H]. apply Z.eqb_eq, H. Qed.

Lemma num2_utod (x : Z) : 0 <= x < 100 ->
  RFC3339.num2 (GoTime.utod (x / 10)) (GoTime.utod (x mod 10)) = x.
Proof.
  intros H. unfold RFC3339.num2.
  rewrite !dval_utod by (Z.div_mod_to_equations; lia).
  Z.div_mod_to_equations; lia.
Qed.

Lemma num4_utod (x : Z) : 0 <= x < 10000 ->
  RFC3339.num4 (GoTime.utod (x / 1000)) (GoTime.utod (x / 100 mod 10))
               (GoTime.utod (x / 10 mod 10)) (GoTime.utod (x mod 10)) = x.
Proof.
  intros H. unfold RFC3339.num4, RFC3339.num2.
  rewrite !dval_utod by (Z.div_mod_to_equations; lia).
  Z.div_mod_to_equations; lia.
Qed.

Lemma appendInt2 (x : Z) : 0 <= x < 100 ->
  GoTime.appendInt x 2 = [GoTime.utod (x / 10); GoTime.utod (x mod 10)].
Proof.
  intros H. unfold GoTime.appendInt.
  replace (x <? 0) with false by (symmetry; apply Z.ltb_ge; lia).
  rewrite Z.abs_eq by lia.
  replace (x <? 100) with true by (symmetry; apply Z.ltb_lt; lia).
  reflexivity.
Qed.

Lemma appendInt4 (x : Z) : 0 <= x < 10000 ->
  GoTime.appendInt x 4 =
  [GoTime.utod (x / 1000); GoTime.utod (x / 100 mod 10);
   GoTime.utod (x / 10 mod 10); GoTime.utod (x mod 10)].
Proof.
  intros H. unfold GoTime.appendInt.
  replace (x <? 0) with false by (symmetry; apply Z.ltb_ge; lia).
  rewrite Z.abs_eq by lia.
  replace (x <? 10000) with true by (symmetry; apply Z.ltb_lt; lia).
  reflexivity.
Qed.

Lemma days_in_month_le (y m : Z) : GoTime.days_in_month y m <= 31.
Proof.
  unfold GoTime.days_in_month.
  repeat match goal with |- context [if ?b then _ else _] => destruct b end; lia.
Qed.

Ltac rfc_digits :=
  rewrite ?is_digit_utod, ?num2_utod, ?num4_utod by (Z.div_mod_to_equations; lia).

Ltac bool_goals :=
  repeat (apply andb_true_intro; split);
  try reflexivity; try (apply Z.leb_le; Z.div_mod_to_equations; lia).

Lemma Format_RFC3339_date_time (t : GoTime.Time) :
  GoTime.valid t ->
  RFC3339.date_time (list_ascii_of_string (GoTime.Format_RFC3339 t)) = true.
Proof.
  intros (Hy & Hm & Hd & Hh & Hmi & Hs & Hns & Hoff).
  pose proof (days_in_month_le (GoTime.year t) (GoTime.month t)).
  unfold GoTime.Format_RFC3339, GoTime.appendFormatRFC3339.
  rewrite list_ascii_of_string_of_list_ascii.
  rewrite appendInt4 by lia. rewrite !appendInt2 by lia.
  destruct (GoTime.offset t =? 0) eqn:Hz.
  - cbn -[GoTime.utod Z.div Z.modulo RFC3339.num2 RFC3339.num4 RFC3339.is_digit
          GoTime.days_in_month].
    rfc_digits. bool_goals.
  - destruct (Z.quot (GoTime.offset t) 60 <? 0) eqn:Hq.
    + apply Z.ltb_lt in Hq.
      assert (Hb : 0 <= - Z.quot (GoTime.offset t) 60 < 1440).
      { Z.quot_rem_to_equations; lia. }
      rewrite !appendInt2 by (Z.div_mod_to_equations; lia).
      cbn -[GoTime.utod Z.div Z.modulo RFC3339.num2 RFC3339.num4 RFC3339.is_digit
            GoTime.days_in_month Z.quot Z.opp].
      rfc_digits. bool_goals.
    + apply Z.ltb_ge in Hq.
      assert (Hb : 0 <= Z.quot (GoTime.offset t) 60 < 1440).
      { Z.quot_rem_to_equations; lia. }
      rewrite !appendInt2 by (Z.div_mod_to_equations; lia).
      cbn -[GoTime.utod Z.div Z.modulo RFC3339.num2 RFC3339.num4 RFC3339.is_digit
            GoTime.days_in_month Z.quot].
      rfc_digits. bool_goals.
Qed.

(** ** The delivery and the consumption loop *)

Section Loop.

Variable Marshal : Envelope.PubSubMessage -> result json.
Variable NewReq : string -> string -> json -> result Request.
Variable DoReq : Client -> Request -> result Response.

Abbreviation send := (sendPOST Marshal NewReq DoReq).
Abbreviation cb := (callback Marshal NewReq DoReq).
Abbreviation decide_ack := (decision Marshal NewReq DoReq).

Ltac unfold_send :=
  unfold sendPOST;
  destruct (Marshal _) as [d|e]; cbn;
  [destruct (NewReq _ _ _) as [req|e]; cbn;
   [destruct (DoReq _ _) as [resp|e]; cbn;
    [destruct (_ && _); cbn|]|]|].

Lemma sendPOST_acks (url : string) (p : Envelope.PubSubMessage) (w : World) :
  acks (snd (send url p w)) = acks w.
Proof. unfold_send; reflexivity. Qed.

Lemma sendPOST_result_world (url : string) (p : Envelope.PubSubMessage) (w w' : World) :
  fst (send url p w) = fst (send url p w').
Proof. unfold_send; reflexivity. Qed.

Lemma sendPOST_logs (url : string) (p : Envelope.PubSubMessage) (w : World) :
  exists l, logs (snd (send url p w)) = (logs w ++ l)%list.
Proof.
  unfold_send;
    first [exists []; rewrite app_nil_r; reflexivity | eexists; reflexivity].
Qed.

Lemma callback_eq (cfg : Config) (m : pubsub.Message) (w : World) :
  cb cfg m w =
  let r := send (URL cfg) (transformMessage m cfg) w in
  match fst r with
  | Some e =>
      (tt, {| logs := (logs (snd r) ++
                [("Error processing message ID " ++ pubsub.ID m ++ ": " ++ Error e)%string])%list;
              acks := (acks (snd r) ++ [(pubsub.ID m, Nacked)])%list |})
  | None => (tt, {| logs := logs (snd r); acks := (acks (snd r) ++ [(pubsub.ID m, Acked)])%list |})
  end.
Proof.
  unfold callback, bind, log, handle.
  destruct (send (URL cfg) (transformMessage m cfg) w) as [[e|] w'] eqn:E; reflexivity.
Qed.

Lemma callback_acks (cfg : Config) (m : pubsub.Message) (w : World) :
  acks (snd (cb cfg m w)) = (acks w ++ [(pubsub.ID m, decide_ack cfg m)])%list.
Proof.
  rewrite callback_eq. cbn. unfold decision.
  rewrite (sendPOST_result_world _ _ {| logs := []; acks := [] |} w).
  destruct (fst (send (URL cfg) (transformMessage m cfg) w)); cbn;
    rewrite sendPOST_acks; reflexivity.
Qed.

Lemma callback_logs (cfg : Config) (m : pubsub.Message) (w : World) :
  exists l, logs (snd (cb cfg m w)) = (logs w ++ l)%list.
Proof.
  rewrite callback_eq. cbn.
  destruct (sendPOST_logs (URL cfg) (transformMessage m cfg) w) as [l Hl].
  destruct (fst _); cbn; rewrite Hl.
  - eexists. rewrite <- app_assoc. reflexivity.
  - eexists. reflexivity.
Qed.

Lemma run_each_acks (cfg : Config) (ms : list pubsub.Message) (w : World) :
  acks (snd (run_each (cb cfg) ms w)) =
  (acks w ++ map (fun m => (pubsub.ID m, decide_ack cfg m)) ms)%list.
Proof.
  revert w. induction ms as [|m ms IH]; intros w; cbn.
  - rewrite app_nil_r. reflexivity.
  - unfold bind. destruct (cb cfg m w) as [[] w'] eqn:E.
    rewrite IH. replace (acks w') with (acks (snd (cb cfg m w))) by (rewrite E; reflexivity).
    rewrite callback_acks, <- app_assoc. reflexivity.
Qed.

Lemma run_each_logs (cfg : Config) (ms : list pubsub.Message) (w : World) :
  exists l, logs (snd (run_each (cb cfg) ms w)) = (logs w ++ l)%list.
Proof.
  revert w. induction ms as [|m ms IH]; intros w; cbn.
  - exists []. rewrite app_nil_r. reflexivity.
  - unfold bind. destruct (cb cfg m w) as [[] w'] eqn:E.
    destruct (IH w') as [l2 H2]. destruct (callback_logs cfg m w) as [l1 H1].
    rewrite E in H1. cbn in H1. rewrite H2, H1, <- app_assoc. eexists. reflexivity.
Qed.

Lemma consumeMessages_eq (ds : list pubsub.Message) (term : option error)
    (cfg : Config) (w : World) :
  consumeMessages Marshal NewReq DoReq ds term cfg w =
  (match term with
   | Some e => if negb (is_Canceled e) then Some (Wrapped "error receiving messages" e) else None
   | None => None
   end, snd (run_each (cb cfg) ds w)).
Proof.
  unfold consumeMessages, Receive, bind.
  destruct (run_each (cb cfg) ds w) as [[] w'].
  destruct term as [e|]; cbn; [destruct (negb (is_Canceled e))|]; reflexivity.
Qed.

(** C1: every message the loop receives gets exactly one acknowledgement
    call, in the order received: an [Ack] when [sendPOST] succeeds and a
    [Nack] when it returns an error. *)
Theorem consumeMessages_ack_exactly_once (ds : list pubsub.Message) (term : option error)
    (cfg : Config) (w : World) :
  acks (snd (consumeMessages Marshal NewReq DoReq ds term cfg w)) =
  (acks w ++ map (fun m => (pubsub.ID m, decide_ack cfg m)) ds)%list /\
  (forall m, (decide_ack cfg m = Acked <->
              fst (send (URL cfg) (transformMessage m cfg) w) = None) /\
             (decide_ack cfg m = Nacked <->
              exists e, fst (send (URL cfg) (transformMessage m cfg) w) = Some e)).
Proof.
  split.
  - rewrite consumeMessages_eq. apply run_each_acks.
  - intros m. unfold decision.
    rewrite (sendPOST_result_world _ _ {| logs := []; acks := [] |} w).
    destruct (fst (send (URL cfg) (transformMessage m cfg) w)) as [e|].
    + split; split; try discriminate; eauto.
    + split; split; try discriminate; auto. intros [e H]; discriminate.
Qed.

(** C3: [sendPOST] returns the nil error exactly when the envelope is
    marshalled, the request is built and the POST gets a response with a
    status in [200, 300); otherwise its error wraps the marshalling, the
    request or the transport error, or carries the response's status. *)
Theorem sendPOST_success_iff_2xx (url : string) (p : Envelope.PubSubMessage) (w : World) :
  (fst (send url p w) = None <->
   exists d req resp,
     Marshal p = Ok d /\ NewReq "POST" url d = Ok req /\
     DoReq {| Timeout := 10 |} (header_set "Content-Type" "application/json" req) = Ok resp /\
     200 <= StatusCode resp < 300) /\
  (forall e, fst (send url p w) = Some e ->
   (exists e', Marshal p = Err e' /\ e = Wrapped "failed to marshal JSON payload" e') \/
   (exists d e', Marshal p = Ok d /\ NewReq "POST" url d = Err e' /\
                 e = Wrapped "failed to create POST request" e') \/
   (exists d req e', Marshal p = Ok d /\ NewReq "POST" url d = Ok req /\
      DoReq {| Timeout := 10 |} (header_set "Content-Type" "application/json" req) = Err e' /\
      e = Wrapped "POST request failed" e') \/
   (exists d req resp, Marshal p = Ok d /\ NewReq "POST" url d = Ok req /\
      DoReq {| Timeout := 10 |} (header_set "Content-Type" "application/json" req) = Ok resp /\
      ~ (200 <= StatusCode resp < 300) /\
      e = ErrorString ("failed to process message. HTTP Status: " ++ Status resp))).
Proof.
  unfold sendPOST.
  destruct (Marshal p) as [d|e0] eqn:HM.
  2:{ cbn. split.
      - split; [discriminate|]. intros (d & req & resp & H & _); discriminate.
      - intros e He. injection He as <-. left. eauto. }
  destruct (NewReq "POST" url d) as [req|e0] eqn:HN.
  2:{ cbn. split.
      - split; [discriminate|]. intros (d' & req & resp & H1 & H2 & _).
        injection H1 as <-. congruence.
      - intros e He. injection He as <-. right; left. eauto. }
  destruct (DoReq _ _) as [resp|e0] eqn:HD.
  2:{ cbn. split.
      - split; [discriminate|]. intros (d' & req' & resp & H1 & H2 & H3 & _).
        injection H1 as <-. rewrite HN in H2. injection H2 as <-. congruence.
      - intros e He. injection He as <-. right; right; left. eauto 7. }
  destruct ((200 <=? StatusCode resp) && (StatusCode resp <? 300)) eqn:Hs; cbn.
  - apply andb_prop in Hs as [H1 H2]. apply Z.leb_le in H1. apply Z.ltb_lt in H2.
    split.
    + split; [|reflexivity]. intros _. exists d, req, resp. auto.
    + discriminate.
  - split.
    + split; [discriminate|]. intros (d' & req' & resp' & H1 & H2 & H3 & H4).
      injection H1 as <-. rewrite HN in H2. injection H2 as <-.
      rewrite HD in H3. injection H3 as <-.
      apply andb_false_iff in Hs as [Hs|Hs];
        [apply Z.leb_gt in Hs | apply Z.ltb_ge in Hs]; lia.
    + intros e He. injection He as <-. right; right; right.
      exists d, req, resp. repeat split; auto.
      apply andb_false_iff in Hs as [Hs|Hs];
        [apply Z.leb_gt in Hs | apply Z.ltb_ge in Hs]; lia.
Qed.

(** C4: the loop stops cleanly (nil error) when [Receive] returns nil or
    [context.Canceled]; when it is cancelled before any message arrives
    the world is untouched (no acknowledgement, no log line); any other
    termination error is returned wrapped. *)
Theorem consumeMessages_termination (ds : list pubsub.Message) (cfg : Config) (w : World) :
  fst (consumeMessages Marshal NewReq DoReq ds None cfg w) = None /\
  fst (consumeMessages Marshal NewReq DoReq ds (Some ContextCanceled) cfg w) = None /\
  consumeMessages Marshal NewReq DoReq [] (Some ContextCanceled) cfg w = (None, w) /\
  (forall e, e <> ContextCanceled ->
   fst (consumeMessages Marshal NewReq DoReq ds (Some e) cfg w) =
   Some (Wrapped "error receiving messages" e)).
Proof.
  rewrite !consumeMessages_eq. split; [reflexivity|]. split; [reflexivity|].
  split; [reflexivity|].
  intros e He. rewrite consumeMessages_eq. cbn.
  destruct e; [contradiction|reflexivity|reflexivity].
Qed.

(** C5: a message whose delivery fails is nacked, an error line naming
    its ID and the error is logged, the loop's result is the one it has
    without that message, and the following messages are handled. *)
Theorem consumeMessages_delivery_error_local (m : pubsub.Message) (rest : list pubsub.Message)
    (term : option error) (cfg : Config) (w : World) (e : error) :
  fst (send (URL cfg) (transformMessage m cfg) w) = Some e ->
  logs (snd (cb cfg m w)) =
    (logs (snd (send (URL cfg) (transformMessage m cfg) w)) ++
     [("Error processing message ID " ++ pubsub.ID m ++ ": " ++ Error e)%string])%list /\
  acks (snd (cb cfg m w)) = (acks w ++ [(pubsub.ID m, Nacked)])%list /\
  fst (consumeMessages Marshal NewReq DoReq (m :: rest) term cfg w) =
    fst (consumeMessages Marshal NewReq DoReq [] term cfg w) /\
  In ("Error processing message ID " ++ pubsub.ID m ++ ": " ++ Error e)%string
     (logs (snd (consumeMessages Marshal NewReq DoReq (m :: rest) term cfg w))) /\
  acks (snd (consumeMessages Marshal NewReq DoReq (m :: rest) term cfg w)) =
    (acks w ++ (pubsub.ID m, Nacked) :: map (fun m' => (pubsub.ID m', decide_ack cfg m')) rest)%list.
Proof.
  intros He.
  assert (Hcb : logs (snd (cb cfg m w)) =
    (logs (snd (send (URL cfg) (transformMessage m cfg) w)) ++
     [("Error processing message ID " ++ pubsub.ID m ++ ": " ++ Error e)%string])%list /\
    acks (snd (cb cfg m w)) = (acks w ++ [(pubsub.ID m, Nacked)])%list).
  { rewrite callback_eq. cbn. rewrite He. cbn. rewrite sendPOST_acks. auto. }
  destruct Hcb as [Hl Ha].
  split; [exact Hl|]. split; [exact Ha|].
  rewrite !consumeMessages_eq. split; [reflexivity|].
  cbn [run_each]. unfold bind.
  destruct (cb cfg m w) as [[] w'] eqn:E. cbn in Hl, Ha.
  split.
  - destruct (run_each_logs cfg rest w') as [l Hr]. cbn. rewrite Hr, Hl.
    apply in_or_app. left. apply in_or_app. right. left. reflexivity.
  - cbn. rewrite run_each_acks, Ha, <- app_assoc. reflexivity.
Qed.

End Loop.

(** ** The envelope *)

Lemma insert_key_perm (kv : string * string) (kvs : list (string * string)) :
  Permutation (insert_key kv kvs) (kv :: kvs).
Proof.
  induction kvs as [|kv' kvs IH]; cbn; [reflexivity|].
  destruct (String.compare (fst kv) (fst kv')); try reflexivity.
  rewrite IH. apply perm_swap.
Qed.

Lemma sort_keys_perm (kvs : list (string * string)) : Permutation (sort_keys kvs) kvs.
Proof.
  induction kvs as [|kv kvs IH]; cbn; [reflexivity|].
  rewrite insert_key_perm, IH. reflexivity.
Qed.

(** C2: the envelope's [data] is the standard base64 encoding of the
    payload, also in the JSON document, and decoding it gives the
    payload back. *)
Theorem transformMessage_data_base64 (msg : pubsub.Message) (cfg : Config) :
  Envelope.Data (Envelope.Message (transformMessage msg cfg)) =
    Base64.EncodeToString (pubsub.Data msg) /\
  message_field "data" (marshal (transformMessage msg cfg)) =
    Some (JString (Base64.EncodeToString (pubsub.Data msg))) /\
  Base64.DecodeString (Envelope.Data (Envelope.Message (transformMessage msg cfg))) =
    Some (pubsub.Data msg).
Proof.
  split; [reflexivity|]. split; [reflexivity|].
  apply DecodeString_EncodeToString.
Qed.

(** C6: the attributes are copied as they are (in the document: the
    same pairs, in key order), [orderingKey] is in the document exactly
    when it is not empty and then equals the message's, and the publish
    time is an RFC 3339 date-time. *)
Theorem transformMessage_fields (msg : pubsub.Message) (cfg : Config) :
  GoTime.valid (pubsub.PublishTime msg) ->
  Envelope.Attributes (Envelope.Message (transformMessage msg cfg)) = pubsub.Attributes msg /\
  (forall kvs, pubsub.Attributes msg = Some kvs ->
   exists kvs', message_field "attributes" (marshal (transformMessage msg cfg)) =
                  Some (JObject (map (fun kv => (fst kv, JString (snd kv))) kvs')) /\
                Permutation kvs' kvs) /\
  message_field "orderingKey" (marshal (transformMessage msg cfg)) =
    (if String.eqb (pubsub.OrderingKey msg) EmptyString then None
     else Some (JString (pubsub.OrderingKey msg))) /\
  RFC3339.date_time
    (list_ascii_of_string (Envelope.PublishTime (Envelope.Message (transformMessage msg cfg))))
  = true.
Proof.
  intros Hv. split; [reflexivity|]. split; [|split].
  - intros kvs Hk. exists (sort_keys kvs). split.
    + unfold message_field. cbn. rewrite Hk. reflexivity.
    + apply sort_keys_perm.
  - unfold message_field. cbn.
    destruct (String.eqb (pubsub.OrderingKey msg) EmptyString); reflexivity.
  - apply Format_RFC3339_date_time, Hv.
Qed.

Lemma append_cancel_l (p a b : string) : (p ++ a = p ++ b)%string -> a = b.
Proof. induction p as [|c p IH]; cbn; [auto|]. intros H. injection H. auto. Qed.

Lemma split_at_slash (p1 p2 r1 r2 : string) :
  has_slash p1 = false -> has_slash p2 = false ->
  (p1 ++ String "/" r1 = p2 ++ String "/" r2)%string -> p1 = p2 /\ r1 = r2.
Proof.
  revert p2. induction p1 as [|c1 p1 IH]; intros [|c2 p2] H1 H2 H; cbn in *.
  - injection H. auto.
  - injection H as <- _. discriminate.
  - injection H as -> _. discriminate.
  - apply orb_false_iff in H1 as [_ H1]. apply orb_false_iff in H2 as [_ H2].
    injection H as <- H. destruct (IH p2 H1 H2 H) as [-> ->]. auto.
Qed.

(** C7 (amended): for every configuration the subscription field is
    [projects/{project}/subscriptions/{subscription}]; two
    configurations whose project identifiers contain no slash get
    different subscription fields when their (project, subscription)
    pairs differ. *)
Theorem transformMessage_subscription (msg1 msg2 : pubsub.Message) (c1 c2 : Config) :
  Envelope.Subscription (transformMessage msg1 c1) =
    ("projects/" ++ Project c1 ++ "/subscriptions/" ++ Subscription c1)%string /\
  (has_slash (Project c1) = false -> has_slash (Project c2) = false ->
   (Project c1, Subscription c1) <> (Project c2, Subscription c2) ->
   Envelope.Subscription (transformMessage msg1 c1) <>
   Envelope.Subscription (transformMessage msg2 c2)).
Proof.
  split; [reflexivity|].
  intros H1 H2 Hne Heq. apply Hne. cbn [transformMessage Envelope.Subscription] in Heq.
  apply (append_cancel_l "projects/") in Heq.
  destruct (split_at_slash _ _ _ _ H1 H2 Heq) as [-> Hr].
  apply (append_cancel_l "subscriptions/") in Hr. rewrite Hr. reflexivity.
Qed.

(** C7 (counterexample): without that restriction two different
    configurations can give the same subscription field. *)
Lemma transformMessage_subscription_collision :
  (Project cfg_slash1, Subscription cfg_slash1) <> (Project cfg_slash2, Subscription cfg_slash2) /\
  Envelope.Subscription (transformMessage hello_msg cfg_slash1) =
  Envelope.Subscription (transformMessage hello_msg cfg_slash2).
Proof. split; [discriminate | reflexivity]. Qed.

(** C8: the document [json.Marshal] gives for the spec's example. *)
Theorem transformMessage_example_document :
  json_Marshal (transformMessage hello_msg cfg_pxy) =
  Ok (JObject
        [("message", JObject [("attributes", JObject [("k", JString "v")]);
                              ("data", JString "aGVsbG8=");
                              ("messageId", JString "m1");
                              ("publishTime", JString "2024-01-01T00:00:00Z")]);
         ("subscription", JString "projects/p/subscriptions/s")]) /\
  message_field "orderingKey" (marshal (transformMessage hello_msg cfg_pxy)) = None.
Proof. split; reflexivity. Qed.

(** C9: the publish time is written to the second: two messages whose
    publish times differ only below the second get the same string. *)
Theorem transformMessage_publishTime_seconds (msg1 msg2 : pubsub.Message) (cfg : Config) :
  let t1 := pubsub.PublishTime msg1 in
  let t2 := pubsub.PublishTime msg2 in
  GoTime.year t1 = GoTime.year t2 -> GoTime.month t1 = GoTime.month t2 ->
  GoTime.day t1 = GoTime.day t2 -> GoTime.hour t1 = GoTime.hour t2 ->
  GoTime.minute t1 = GoTime.minute t2 -> GoTime.second t1 = GoTime.second t2 ->
  GoTime.offset t1 = GoTime.offset t2 ->
  Envelope.PublishTime (Envelope.Message (transformMessage msg1 cfg)) =
  Envelope.PublishTime (Envelope.Message (transformMessage msg2 cfg)).
Proof.
  intros t1 t2 Hy Hm Hd Hh Hmi Hs Ho. cbn.
  unfold GoTime.Format_RFC3339, GoTime.appendFormatRFC3339. fold t1 t2.
  rewrite Hy, Hm, Hd, Hh, Hmi, Hs, Ho. reflexivity.
Qed.

(** C10: [attributes] is always in the document, and a nil attribute
    map is written as [null]. *)
Theorem transformMessage_attributes_present (msg : pubsub.Message) (cfg : Config) :
  (exists j, message_field "attributes" (marshal (transformMessage msg cfg)) = Some j) /\
  (pubsub.Attributes msg = None ->
   message_field "attributes" (marshal (transformMessage msg cfg)) = Some JNull).
Proof.
  unfold message_field. cbn. split; [eexists; reflexivity|].
  intros H. rewrite H. reflexivity.
Qed.

(** ** The theorems at concrete inputs *)

Lemma consumeMessages_delivery_error_local_witness :
  let e := ErrorString "failed to process message. HTTP Status: 500 Internal Server Error" in
  let send := sendPOST json_Marshal newRequest_ok do_500 in
  let run := consumeMessages json_Marshal newRequest_ok do_500 in
  fst (send (URL cfg_pxy) (transformMessage hello_msg cfg_pxy) empty_world) = Some e /\
  (logs (snd (callback json_Marshal newRequest_ok do_500 cfg_pxy hello_msg empty_world)) =
     (logs (snd (send (URL cfg_pxy) (transformMessage hello_msg cfg_pxy) empty_world)) ++
      [("Error processing message ID " ++ pubsub.ID hello_msg ++ ": " ++ Error e)%string])%list /\
   acks (snd (callback json_Marshal newRequest_ok do_500 cfg_pxy hello_msg empty_world)) =
     (acks empty_world ++ [(pubsub.ID hello_msg, Nacked)])%list /\
   fst (run [hello_msg; hello_msg] None cfg_pxy empty_world) =
     fst (run [] None cfg_pxy empty_world) /\
   In ("Error processing message ID " ++ pubsub.ID hello_msg ++ ": " ++ Error e)%string
      (logs (snd (run [hello_msg; hello_msg] None cfg_pxy empty_world))) /\
   acks (snd (run [hello_msg; hello_msg] None cfg_pxy empty_world)) =
     (acks empty_world ++ (pubsub.ID hello_msg, Nacked) ::
      map (fun m' => (pubsub.ID m', decision json_Marshal newRequest_ok do_500 cfg_pxy m'))
          [hello_msg])%list).
Proof.
  cbv zeta. split; [reflexivity|].
  apply (consumeMessages_delivery_error_local json_Marshal newRequest_ok do_500
           hello_msg [hello_msg] None cfg_pxy empty_world).
  reflexivity.
Defined.

Lemma transformMessage_fields_witness :
  GoTime.valid (pubsub.PublishTime hello_msg) /\
  (Envelope.Attributes (Envelope.Message (transformMessage hello_msg cfg_pxy)) =
     pubsub.Attributes hello_msg /\
   (forall kvs, pubsub.Attributes hello_msg = Some kvs ->
    exists kvs', message_field "attributes" (marshal (transformMessage hello_msg cfg_pxy)) =
                   Some (JObject (map (fun kv => (fst kv, JString (snd kv))) kvs')) /\
                 Permutation kvs' kvs) /\
   message_field "orderingKey" (marshal (transformMessage hello_msg cfg_pxy)) =
     (if String.eqb (pubsub.OrderingKey hello_msg) EmptyString then None
      else Some (JString (pubsub.OrderingKey hello_msg))) /\
   RFC3339.date_time
     (list_ascii_of_string
        (Envelope.PublishTime (Envelope.Message (transformMessage hello_msg cfg_pxy))))
   = true).
Proof.
  assert (Hv : GoTime.valid (pubsub.PublishTime hello_msg)).
  { unfold GoTime.valid. cbn. repeat split; lia. }
  split; [exact Hv|].
  apply (transformMessage_fields hello_msg cfg_pxy). exact Hv.
Defined.

Lemma transformMessage_subscription_witness :
  Envelope.Subscription (transformMessage hello_msg cfg_slash1) =
    ("projects/" ++ Project cfg_slash1 ++ "/subscriptions/" ++ Subscription cfg_slash1)%string /\
  has_slash (Project cfg_pxy) = false /\ has_slash (Project cfg_slash2) = false /\
  (Project cfg_pxy, Subscription cfg_pxy) <> (Project cfg_slash2, Subscription cfg_slash2) /\
  Envelope.Subscription (transformMessage hello_msg cfg_pxy) <>
  Envelope.Subscription (transformMessage hello_msg cfg_slash2).
Proof.
  split; [apply (transformMessage_subscription hello_msg hello_msg cfg_slash1 cfg_pxy)|].
  assert (H1 : has_slash (Project cfg_pxy) = false) by reflexivity.
  assert (H2 : has_slash (Project cfg_slash2) = false) by reflexivity.
  assert (H3 : (Project cfg_pxy, Subscription cfg_pxy) <>
               (Project cfg_slash2, Subscription cfg_slash2)) by discriminate.
  split; [exact H1|]. split; [exact H2|]. split; [exact H3|].
  apply (transformMessage_subscription hello_msg hello_msg cfg_pxy cfg_slash2); assumption.
Defined.

Lemma transformMessage_publishTime_seconds_witness :
  GoTime.nanosecond (pubsub.PublishTime hello_msg) <>
    GoTime.nanosecond (pubsub.PublishTime hello_msg_late) /\
  Envelope.PublishTime (Envelope.Message (transformMessage hello_msg cfg_pxy)) =
  Envelope.PublishTime (Envelope.Message (transformMessage hello_msg_late cfg_pxy)).
Proof.
  split; [discriminate|].
  apply (transformMessage_publishTime_seconds hello_msg hello_msg_late cfg_pxy);
    reflexivity.
Defined.

Example flags1 : parseFlags ["--project=p"; "-subscription"; "s"] =
  FlagsDone (Ok {| Project := "p"; Subscription := "s"; URL := "http://localhost:8080" |}).
Proof. reflexivity. Qed.
Example flags2 : parseFlags ["-subscription"; "s"; "x"; "--project=p"] =
  FlagsDone (Err (ErrorString "missing required argument: --project")).
Proof. reflexivity. Qed.
Example flags3 : parseFlags ["-h"] = FlagsExit 0.
Proof. reflexivity. Qed.
Example flags4 : parseFlags ["-project=p"; "-bogus"] = FlagsExit 2.
Proof. reflexivity. Qed.
Example flags5 : parseFlags ["-project=a"; "-subscription=s"; "-project=b"; "--"; "-url=u"] =
  FlagsDone (Ok {| Project := "b"; Subscription := "s"; URL := "http://localhost:8080" |}).
Proof. reflexivity. Qed.

(** ** Command-line flags *)

Lemma Flag_set_set (k a b : string) (vals : list (string * string)) :
  Flag.set k b (Flag.set k a vals) = Flag.set k b vals.
Proof.
  induction vals as [|[k' v'] vals IH]; cbn; [reflexivity|].
  destruct (String.eqb k k') eqn:E; cbn; rewrite E; [reflexivity|].
  rewrite IH. reflexivity.
Qed.

Lemma Flag_get_set (k v : string) (vals : list (string * string)) :
  Flag.get k vals <> None -> Flag.get k (Flag.set k v vals) = Some v.
Proof.
  induction vals as [|[k' v'] vals IH]; cbn; [congruence|].
  destruct (String.eqb k k') eqn:E; cbn; rewrite E; auto.
Qed.

(** The program's flags can be given as [-name=value], [--name=value],
    [-name value] or [--name value], with the same effect. *)
Theorem Flag_parse_forms (nm v : string) (rest : list string) (vals : list (string * string)) :
  In nm ["project"; "subscription"; "url"] -> Flag.get nm vals <> None ->
  Flag.parse (("-" ++ nm ++ "=" ++ v)%string :: rest) vals = Flag.parse rest (Flag.set nm v vals) /\
  Flag.parse (("--" ++ nm ++ "=" ++ v)%string :: rest) vals = Flag.parse rest (Flag.set nm v vals) /\
  Flag.parse (("-" ++ nm)%string :: v :: rest) vals = Flag.parse rest (Flag.set nm v vals) /\
  Flag.parse (("--" ++ nm)%string :: v :: rest) vals = Flag.parse rest (Flag.set nm v vals).
Proof.
  intros Hin Hg.
  destruct Hin as [<-|[<-|[<-|[]]]]; cbn;
    destruct (Flag.get _ vals); try congruence; repeat split.
Qed.

Abbreviation all_defined vals :=
  (forall k, In k program_flags -> Flag.get k vals <> None).

Abbreviation apply_sets os vals :=
  (fold_left (fun vs o => Flag.set (snd (fst o)) (snd o) vs) os vals).

Lemma Flag_get_set_some (k j v : string) (vals : list (string * string)) :
  Flag.get k vals <> None -> Flag.get k (Flag.set j v vals) <> None.
Proof.
  induction vals as [|[k' v'] vals IH]; cbn; [auto|].
  destruct (String.eqb j k'); cbn; destruct (String.eqb k k'); auto; congruence.
Qed.

Lemma Flag_get_set_none (k j v : string) (vals : list (string * string)) :
  Flag.get k vals = None -> Flag.get k (Flag.set j v vals) = None.
Proof.
  induction vals as [|[k' v'] vals IH]; cbn; [auto|].
  destruct (String.eqb j k'); cbn; destruct (String.eqb k k'); auto; discriminate.
Qed.

Lemma Flag_set_comm (j k c b : string) (vals : list (string * string)) :
  j <> k -> Flag.set j c (Flag.set k b vals) = Flag.set k b (Flag.set j c vals).
Proof.
  intros Hjk. induction vals as [|[k' v'] vals IH]; cbn; [reflexivity|].
  destruct (String.eqb k k') eqn:Ek; destruct (String.eqb j k') eqn:Ej.
  - apply String.eqb_eq in Ek, Ej. congruence.
  - cbn. rewrite Ej, Ek. reflexivity.
  - cbn. rewrite Ej, Ek. reflexivity.
  - cbn. rewrite Ej, Ek, IH. reflexivity.
Qed.

Lemma defaults_defined : all_defined Flag.defaults.
Proof. intros k [<-|[<-|[<-|[]]]]; discriminate. Qed.

Lemma apply_sets_defined (os : list (flag_form * string * string)) (vals : list (string * string)) :
  all_defined vals -> all_defined (apply_sets os vals).
Proof.
  revert vals. induction os as [|o os IH]; intros vals H; cbn; [exact H|].
  apply IH. intros k Hk. apply Flag_get_set_some, H, Hk.
Qed.

Lemma apply_sets_undefined (k : string) (os : list (flag_form * string * string))
    (vals : list (string * string)) :
  Flag.get k vals = None -> Flag.get k (apply_sets os vals) = None.
Proof.
  revert vals. induction os as [|o os IH]; intros vals H; cbn; [exact H|].
  apply IH, Flag_get_set_none, H.
Qed.

Lemma Flag_parse_occurrence (f : flag_form) (nm v : string) (rest : list string)
    (vals : list (string * string)) :
  In nm program_flags -> Flag.get nm vals <> None ->
  Flag.parse (occurrence f nm v ++ rest) vals = Flag.parse rest (Flag.set nm v vals).
Proof.
  intros Hin Hg.
  destruct Hin as [<-|[<-|[<-|[]]]]; destruct f; cbn;
    destruct (Flag.get _ vals); congruence.
Qed.

Lemma Flag_parse_occurrences (os : list (flag_form * string * string)) (rest : list string)
    (vals : list (string * string)) :
  Forall (fun o => In (snd (fst o)) program_flags) os -> all_defined vals ->
  Flag.parse (occurrences os ++ rest) vals = Flag.parse rest (apply_sets os vals).
Proof.
  revert vals. induction os as [|o os IH]; intros vals Hos Hd; cbn; [reflexivity|].
  apply Forall_inv_tail in Hos as Hos'. apply Forall_inv in Hos.
  unfold occurrences in IH. rewrite <- app_assoc, Flag_parse_occurrence by auto.
  apply IH; [exact Hos'|]. intros k Hk. apply Flag_get_set_some, Hd, Hk.
Qed.

Lemma apply_sets_overwrite (nm a b : string) (mid : list (flag_form * string * string))
    (vals : list (string * string)) :
  Flag.set nm b (apply_sets mid (Flag.set nm a vals)) = Flag.set nm b (apply_sets mid vals).
Proof.
  revert vals. induction mid as [|o mid IH]; intros vals; cbn.
  - apply Flag_set_set.
  - destruct (String.eqb (snd (fst o)) nm) eqn:E.
    + apply String.eqb_eq in E. rewrite E, Flag_set_set. reflexivity.
    + apply String.eqb_neq in E. rewrite Flag_set_comm by exact E. apply IH.
Qed.

(** A program flag given twice keeps the value of its last occurrence:
    an occurrence followed later by another one of the same flag can be
    removed without changing what [parseFlags] returns, whatever the
    forms of the two occurrences and the program flags before, between
    and after them. *)
Theorem Flag_parse_last_wins (nm a b : string) (f1 f2 : flag_form)
    (pre mid : list (flag_form * string * string)) (rest : list string) :
  In nm program_flags -> Forall (fun o => In (snd (fst o)) program_flags) (pre ++ mid) ->
  parseFlags (occurrences pre ++ occurrence f1 nm a ++ occurrences mid ++
              occurrence f2 nm b ++ rest) =
  parseFlags (occurrences pre ++ occurrences mid ++ occurrence f2 nm b ++ rest).
Proof.
  intros Hin Hall. apply Forall_app in Hall as [Hpre Hmid].
  assert (D := apply_sets_defined pre _ defaults_defined).
  unfold parseFlags.
  rewrite !(Flag_parse_occurrences pre) by (auto using defaults_defined).
  rewrite Flag_parse_occurrence by auto.
  rewrite !(Flag_parse_occurrences mid) by
    (auto; intros k Hk; apply Flag_get_set_some, D, Hk).
  rewrite !Flag_parse_occurrence by
    (auto; apply apply_sets_defined; auto; intros k Hk; apply Flag_get_set_some, D, Hk).
  rewrite apply_sets_overwrite. reflexivity.
Qed.

(** Flag parsing stops at ["--"] (which it drops) and at the first
    argument that is not a flag (shorter than two characters or not
    starting with [-]); the arguments after it are left unparsed. *)
Theorem Flag_parse_stops (rest : list string) (vals : list (string * string)) :
  Flag.parse ("--" :: rest) vals = Flag.Parsed vals rest /\
  (forall a, (String.length a < 2)%nat \/ String.get 0 a <> Some "-"%char ->
   Flag.parse (a :: rest) vals = Flag.Parsed vals (a :: rest)).
Proof.
  split; [reflexivity|].
  intros a Ha. destruct a as [|c0 [|c1 r]]; cbn in *; try reflexivity.
  destruct (Ascii.eqb c0 "-") eqn:E; [|reflexivity].
  apply Ascii.eqb_eq in E. subst c0. destruct Ha as [Ha|Ha]; [lia|congruence].
Qed.

(** [parseFlags] on [--project=p --subscription=s]: a missing project is
    reported first, then a missing subscription; otherwise the URL is
    the default [http://localhost:8080]. *)
Theorem parseFlags_required (p s : string) :
  parseFlags [("--project=" ++ p)%string; ("--subscription=" ++ s)%string] =
  if String.eqb p EmptyString then
    FlagsDone (Err (ErrorString "missing required argument: --project"))
  else if String.eqb s EmptyString then
    FlagsDone (Err (ErrorString "missing required argument: --subscription"))
  else FlagsDone (Ok {| Project := p; Subscription := s; URL := "http://localhost:8080" |}).
Proof. reflexivity. Qed.

(** [-h], [-help] or [--help] ends the process with status 0, after
    any program flags and whatever follows; a program flag given last
    without its value ends it with status 2. *)
Theorem parseFlags_exits (nm : string) (pre : list (flag_form * string * string))
    (rest : list string) :
  Forall (fun o => In (snd (fst o)) program_flags) pre ->
  parseFlags (occurrences pre ++ "-h" :: rest) = FlagsExit 0 /\
  parseFlags (occurrences pre ++ "-help" :: rest) = FlagsExit 0 /\
  parseFlags (occurrences pre ++ "--help" :: rest) = FlagsExit 0 /\
  (In nm program_flags ->
   parseFlags (occurrences pre ++ [("-" ++ nm)%string]) = FlagsExit 2 /\
   parseFlags (occurrences pre ++ [("--" ++ nm)%string]) = FlagsExit 2).
Proof.
  intros Hpre. unfold parseFlags.
  rewrite !Flag_parse_occurrences by (auto using defaults_defined).
  assert (D := apply_sets_defined pre _ defaults_defined).
  assert (Hh : Flag.get "h" (apply_sets pre Flag.defaults) = None)
    by (apply apply_sets_undefined; reflexivity).
  assert (Hhelp : Flag.get "help" (apply_sets pre Flag.defaults) = None)
    by (apply apply_sets_undefined; reflexivity).
  split; [cbn; rewrite Hh; reflexivity|].
  split; [cbn; rewrite Hhelp; reflexivity|].
  split; [cbn; rewrite Hhelp; reflexivity|].
  intros Hin. specialize (D nm Hin).
  destruct Hin as [<-|[<-|[<-|[]]]]; cbn;
    (destruct (Flag.get _ (apply_sets pre Flag.defaults)); [|congruence]); split; reflexivity.
Qed.

(** ** Setup and the process *)

Section Process.

Variable Marshal : Envelope.PubSubMessage -> result json.
Variable NewReq : string -> string -> json -> result Request.
Variable DoReq : Client -> Request -> result Response.
Variable PubSubClient : Type.
Variable NewClient : string -> result PubSubClient.
Variable Exists : PubSubClient -> string -> result bool.
Variable Close : PubSubClient -> result unit.
Variable deliveries : list pubsub.Message.
Variable termination : option error.

Variable signal : option nat.

Abbreviation setup := (setupPubSubClient PubSubClient NewClient Exists).
Abbreviation thread :=
  (main_thread Marshal NewReq DoReq PubSubClient NewClient Exists Close deliveries termination).
Abbreviation run_main :=
  (main Marshal NewReq DoReq PubSubClient NewClient Exists Close deliveries termination signal).

(** [setupPubSubClient] returns a client only when the subscription
    exists; on each error it leaves no client open: a client it created
    is closed once, and "does not exist" names the subscription. *)
Theorem setupPubSubClient_cleanup (cfg : Config) (p : Process) :
  (forall c, fst (setup cfg p) = Ok c ->
   NewClient (Project cfg) = Ok c /\ Exists c (Subscription cfg) = Ok true /\
   opened (snd (setup cfg p)) = S (opened p) /\ closed (snd (setup cfg p)) = closed p) /\
  (forall e, fst (setup cfg p) = Err e ->
   exists k, (k <= 1)%nat /\
   opened (snd (setup cfg p)) = (opened p + k)%nat /\ closed (snd (setup cfg p)) = (closed p + k)%nat) /\
  (forall c, NewClient (Project cfg) = Ok c -> Exists c (Subscription cfg) = Ok false ->
   fst (setup cfg p) =
   Err (ErrorString ("subscription " ++ Subscription cfg ++ " does not exist"))).
Proof.
  unfold setupPubSubClient.
  destruct (NewClient (Project cfg)) as [c|e] eqn:HN.
  - destruct (Exists c (Subscription cfg)) as [[|]|e] eqn:HE; cbn.
    + split; [|split].
      * intros c' H. injection H as <-. auto.
      * intros e H; discriminate.
      * intros c' H. injection H as <-. congruence.
    + split; [|split].
      * intros c' H; discriminate.
      * intros _ _. exists 1%nat. lia.
      * intros c' H. injection H as <-. reflexivity.
    + split; [|split].
      * intros c' H; discriminate.
      * intros _ _. exists 1%nat. lia.
      * intros c' H. injection H as <-. congruence.
  - cbn. split; [|split].
    + intros c H; discriminate.
    + intros _ _. exists 0%nat. lia.
    + intros c H. discriminate.
Qed.

Lemma consumeMessages_fst (cfg : Config) (w : World) :
  fst (consumeMessages Marshal NewReq DoReq deliveries termination cfg w) =
  match termination with
  | Some e => if negb (is_Canceled e) then Some (Wrapped "error receiving messages" e) else None
  | None => None
  end.
Proof. rewrite consumeMessages_eq. reflexivity. Qed.

(** The way [main] unfolds once the flags are parsed: the setup, then
    the loop. *)
Lemma main_cfg (args : list string) (cfg : Config) (p : Process) :
  parseFlags args = FlagsDone (Ok cfg) ->
  thread args p =
  let p := plog ("Starting Pub/Sub Tester. Project: " ++ Project cfg ++
                 ", Subscription: " ++ Subscription cfg ++ ", POST URL: " ++ URL cfg) p in
  let '(r, p) := setup cfg p in
  match r with
  | Err e => (1, plog ("Pub/Sub setup error: " ++ Error e) p)
  | Ok client =>
      let '(err, w) :=
        consumeMessages Marshal NewReq DoReq deliveries termination cfg (pworld p) in
      let p := {| pworld := w; opened := opened p; closed := closed p |} in
      match err with
      | Some e => (1, plog ("Message consumption error: " ++ Error e) p)
      | None =>
          let p := plog "Graceful shutdown complete. Exiting application." p in
          let p := pclose p in
          match Close client with
          | Err e => (0, plog ("Error closing Pub/Sub client: " ++ Error e) p)
          | Ok _ => (0, p)
          end
      end
  end.
Proof. intros H. unfold main_thread. rewrite H. reflexivity. Qed.

(** What the [handleShutdown] goroutine changes: the log only. *)
Lemma main_thread_eq (args : list string) (p : Process) :
  fst (run_main args p) = fst (thread args p) /\
  opened (snd (run_main args p)) = opened (snd (thread args p)) /\
  closed (snd (run_main args p)) = closed (snd (thread args p)) /\
  acks (pworld (snd (run_main args p))) = acks (pworld (snd (thread args p))).
Proof.
  unfold main. destruct (main_thread _ _ _ _ _ _ _ _ _ args p) as [code q].
  destruct (parseFlags args) as [|[|]]; destruct signal; cbn; try (repeat split; reflexivity).
  destruct (_ <=? _)%nat; repeat split; reflexivity.
Qed.

Lemma main_thread_logs (args : list string) (p : Process) :
  (signal = None -> logs (pworld (snd (run_main args p))) = logs (pworld (snd (thread args p)))) /\
  (logs (pworld (snd (run_main args p))) = logs (pworld (snd (thread args p))) \/
   exists cfg k, parseFlags args = FlagsDone (Ok cfg) /\ signal = Some k /\
   let n := (List.length (logs (pworld p)) + 1 + k)%nat in
   logs (pworld (snd (run_main args p))) =
   (firstn n (logs (pworld (snd (thread args p)))) ++
    handleShutdown_line :: skipn n (logs (pworld (snd (thread args p)))))%list).
Proof.
  unfold main. destruct (main_thread _ _ _ _ _ _ _ _ _ args p) as [code q].
  split.
  - intros ->. destruct (parseFlags args) as [|[|]]; reflexivity.
  - destruct (parseFlags args) as [|[cfg|]] eqn:HF; try (left; reflexivity).
    destruct signal as [k|]; [|left; reflexivity].
    destruct (_ <=? _)%nat; [|left; reflexivity].
    right. exists cfg, k. auto.
Qed.

(** The exit status of the process is 0, 1 or 2; it is 0 exactly when
    help was asked for, or when the flags are valid, the client is
    created, the subscription exists and [Receive] ended with nil or
    [context.Canceled]. *)
Theorem main_exit_status (args : list string) (p : Process) :
  (fst (run_main args p) = 0 \/ fst (run_main args p) = 1 \/ fst (run_main args p) = 2) /\
  (fst (run_main args p) = 0 <->
   Flag.parse args Flag.defaults = Flag.Help \/
   exists cfg c, parseFlags args = FlagsDone (Ok cfg) /\ NewClient (Project cfg) = Ok c /\
     Exists c (Subscription cfg) = Ok true /\
     (termination = None \/ termination = Some ContextCanceled)).
Proof.
  rewrite (proj1 (main_thread_eq args p)).
  remember (fst (thread args p)) as code eqn:Hcode.
  destruct (parseFlags args) as [code'|[cfg|e]] eqn:HF.
  - unfold main_thread in Hcode. rewrite HF in Hcode. cbn in Hcode. subst code.
    unfold parseFlags in HF.
    destruct (Flag.parse args Flag.defaults) eqn:HP.
    + cbv zeta in HF.
      repeat match type of HF with context [if ?b then _ else _] => destruct b end;
        discriminate.
    + injection HF as <-. split; [auto|]. split; auto.
    + injection HF as <-. split; [auto|]. split; [lia|].
      intros [H|(cfg & c & H & _)]; discriminate.
  - rewrite (main_cfg args cfg p HF) in Hcode. cbn zeta in Hcode.
    unfold setupPubSubClient at 1 in Hcode.
    assert (Hnh : Flag.parse args Flag.defaults <> Flag.Help).
    { intros H. unfold parseFlags in HF. rewrite H in HF. discriminate. }
    destruct (NewClient (Project cfg)) as [c|e] eqn:HN.
    + destruct (Exists c (Subscription cfg)) as [[|]|e] eqn:HE.
      * cbn -[consumeMessages] in Hcode.
        destruct (consumeMessages _ _ _ _ _ _ _) as [err w] eqn:HC.
        assert (Hf := f_equal fst HC). rewrite consumeMessages_fst in Hf.
        cbn in Hf. subst err.
        destruct termination as [e|] eqn:HT.
        -- destruct e; cbn in Hcode.
           ++ destruct (Close c); subst code; (split; [auto|]); split; auto;
                intros _; right; exists cfg, c; auto.
           ++ subst code. split; [auto|]. split; [lia|].
              intros [H|(cfg' & c' & H & _ & _ & [H'|H'])]; [contradiction| |]; discriminate.
           ++ subst code. split; [auto|]. split; [lia|].
              intros [H|(cfg' & c' & H & _ & _ & [H'|H'])]; [contradiction| |]; discriminate.
        -- cbn in Hcode. destruct (Close c); subst code; (split; [auto|]); split; auto;
             intros _; right; exists cfg, c; auto.
      * cbn in Hcode. subst code. split; [auto|]. split; [lia|].
        intros [H|(cfg' & c' & H & H1 & H2 & _)]; [contradiction|].
        injection H as <-. rewrite HN in H1. injection H1 as <-. congruence.
      * cbn in Hcode. subst code. split; [auto|]. split; [lia|].
        intros [H|(cfg' & c' & H & H1 & H2 & _)]; [contradiction|].
        injection H as <-. rewrite HN in H1. injection H1 as <-. congruence.
    + cbn in Hcode. subst code. split; [auto|]. split; [lia|].
      intros [H|(cfg' & c' & H & H1 & _)]; [contradiction|].
      injection H as <-. congruence.
  - unfold main_thread in Hcode. rewrite HF in Hcode. cbn in Hcode. subst code.
    split; [auto|]. split; [lia|].
    assert (Hnh : Flag.parse args Flag.defaults <> Flag.Help).
    { intros H. unfold parseFlags in HF. rewrite H in HF. discriminate. }
    intros [H|(cfg & c & H & _)]; [contradiction|discriminate].
Qed.


(** ** The callback's log line and the run's log *)

Lemma sendPOST_logs_exact (url : string) (pl : Envelope.PubSubMessage) (w : World) :
  logs (snd (sendPOST Marshal NewReq DoReq url pl w)) =
  (logs w ++ match fst (sendPOST Marshal NewReq DoReq url pl w) with
             | None => ["Message processed successfully."%string]
             | Some _ => []
             end)%list.
Proof.
  unfold sendPOST.
  destruct (Marshal pl) as [d|e]; cbn; [|symmetry; apply app_nil_r].
  destruct (NewReq "POST" url d) as [req|e]; cbn; [|symmetry; apply app_nil_r].
  destruct (DoReq _ _) as [resp|e]; cbn; [|symmetry; apply app_nil_r].
  destruct (_ && _); cbn; [reflexivity|symmetry; apply app_nil_r].
Qed.

Lemma callback_logs_exact (cfg : Config) (m : pubsub.Message) (w : World) :
  logs (snd (callback Marshal NewReq DoReq cfg m w)) =
  (logs w ++
   [match fst (sendPOST Marshal NewReq DoReq (URL cfg) (transformMessage m cfg) w) with
    | None => "Message processed successfully."
    | Some e => "Error processing message ID " ++ pubsub.ID m ++ ": " ++ Error e
    end%string])%list.
Proof.
  rewrite (callback_eq Marshal NewReq DoReq). cbv zeta.
  destruct (fst (sendPOST Marshal NewReq DoReq (URL cfg) (transformMessage m cfg) w))
    as [e|] eqn:H; cbn [snd logs]; rewrite sendPOST_logs_exact, H.
  - rewrite app_nil_r. reflexivity.
  - reflexivity.
Qed.

Lemma run_each_logs_exact (cfg : Config) (ms : list pubsub.Message) (w : World) :
  exists l, logs (snd (run_each (callback Marshal NewReq DoReq cfg) ms w)) = (logs w ++ l)%list /\
            List.length l = List.length ms.
Proof.
  revert w. induction ms as [|m ms IH]; intros w; cbn.
  - exists []. rewrite app_nil_r. auto.
  - unfold bind. destruct (callback Marshal NewReq DoReq cfg m w) as [[] w'] eqn:E.
    destruct (IH w') as (l & Hl & Hn).
    assert (H1 := callback_logs_exact cfg m w). rewrite E in H1. cbn in H1.
    rewrite Hl, H1, <- app_assoc. eexists. split; [reflexivity|]. cbn. lia.
Qed.

(** The callback logs exactly one line per message: "Message processed
    successfully." (from [sendPOST]) when the POST succeeds, and the
    error line with the message's ID otherwise. *)
Theorem callback_log_line (cfg : Config) (m : pubsub.Message) (w : World) :
  (fst (sendPOST Marshal NewReq DoReq (URL cfg) (transformMessage m cfg) w) = None ->
   logs (snd (callback Marshal NewReq DoReq cfg m w)) =
   (logs w ++ ["Message processed successfully."%string])%list) /\
  (forall e, fst (sendPOST Marshal NewReq DoReq (URL cfg) (transformMessage m cfg) w) = Some e ->
   logs (snd (callback Marshal NewReq DoReq cfg m w)) =
   (logs w ++ [("Error processing message ID " ++ pubsub.ID m ++ ": " ++ Error e)%string])%list).
Proof.
  rewrite callback_logs_exact. split.
  - intros H. rewrite H. reflexivity.
  - intros e H. rewrite H. reflexivity.
Qed.

(** [consumeMessages] adds exactly as many log lines as messages were
    delivered, whatever [Receive] returns. *)
Theorem consumeMessages_log_count (ds : list pubsub.Message) (term : option error)
    (cfg : Config) (w : World) :
  List.length (logs (snd (consumeMessages Marshal NewReq DoReq ds term cfg w))) =
  (List.length (logs w) + List.length ds)%nat.
Proof.
  rewrite consumeMessages_eq. cbn [snd].
  destruct (run_each_logs_exact cfg ds w) as (l & Hl & Hn).
  rewrite Hl, length_app, Hn. reflexivity.
Qed.

(** ** The client's lifecycle and what [main] does to the world *)

(** [main] opens at most one client and leaves it open only when it
    exits with status 1 through [log.Fatalf] after [Receive] failed with
    an error other than [context.Canceled] (the deferred [Close] is
    skipped); in every other run the client it opened is closed once. *)
Theorem main_client_lifecycle (args : list string) (p : Process) :
  let r := run_main args p in
  (opened (snd r) = opened p /\ closed (snd r) = closed p) \/
  (opened (snd r) = S (opened p) /\ closed (snd r) = S (closed p)) \/
  (opened (snd r) = S (opened p) /\ closed (snd r) = closed p /\ fst r = 1 /\
   exists cfg c e, parseFlags args = FlagsDone (Ok cfg) /\ NewClient (Project cfg) = Ok c /\
     Exists c (Subscription cfg) = Ok true /\ termination = Some e /\ e <> ContextCanceled).
Proof.
  cbv zeta. destruct (main_thread_eq args p) as (E1 & E2 & E3 & _).
  rewrite E1, E2, E3. clear E1 E2 E3.
  remember (thread args p) as r eqn:Hr.
  destruct (parseFlags args) as [code|[cfg|e]] eqn:HF.
  - unfold main_thread in Hr. rewrite HF in Hr. subst r. left. auto.
  - rewrite (main_cfg args cfg p HF) in Hr. cbn zeta in Hr.
    unfold setupPubSubClient at 1 in Hr.
    destruct (NewClient (Project cfg)) as [c|e] eqn:HN.
    + destruct (Exists c (Subscription cfg)) as [[|]|e] eqn:HE.
      * cbn -[consumeMessages] in Hr.
        destruct (consumeMessages _ _ _ _ _ _ _) as [err w] eqn:HC.
        assert (Hf := f_equal fst HC). rewrite consumeMessages_fst in Hf.
        cbn in Hf. subst err.
        destruct termination as [e|] eqn:HT.
        -- destruct e as [|s|pre inner]; cbn in Hr.
           ++ right; left. destruct (Close c); subst r; cbn; auto.
           ++ right; right. subst r; cbn.
              split; [reflexivity|]. split; [reflexivity|]. split; [reflexivity|].
              exists cfg, c, (ErrorString s). repeat split; auto. discriminate.
           ++ right; right. subst r; cbn.
              split; [reflexivity|]. split; [reflexivity|]. split; [reflexivity|].
              exists cfg, c, (Wrapped pre inner). repeat split; auto. discriminate.
        -- cbn in Hr. right; left. destruct (Close c); subst r; cbn; auto.
      * cbn in Hr. subst r. right; left. cbn. auto.
      * cbn in Hr. subst r. right; left. cbn. auto.
    + cbn in Hr. subst r. left. cbn. auto.
  - unfold main_thread in Hr. rewrite HF in Hr. subst r. left. cbn. auto.
Qed.

(** [main] acks or nacks messages only when the flags are valid, the
    client is created and the subscription exists; then every delivered
    message gets exactly one [Ack] or [Nack], the one its POST decides,
    in some order (the statement does not depend on the order in which
    [sub.Receive] runs the callbacks). *)
Theorem main_acks (args : list string) (p : Process) :
  (forall cfg c, parseFlags args = FlagsDone (Ok cfg) -> NewClient (Project cfg) = Ok c ->
   Exists c (Subscription cfg) = Ok true ->
   exists l, acks (pworld (snd (run_main args p))) = (acks (pworld p) ++ l)%list /\
   Permutation l (map (fun m => (pubsub.ID m, decision Marshal NewReq DoReq cfg m)) deliveries)) /\
  (~ (exists cfg c, parseFlags args = FlagsDone (Ok cfg) /\ NewClient (Project cfg) = Ok c /\
      Exists c (Subscription cfg) = Ok true) ->
   acks (pworld (snd (run_main args p))) = acks (pworld p)).
Proof.
  rewrite (proj2 (proj2 (proj2 (main_thread_eq args p)))).
  split.
  - intros cfg c HF HN HE. rewrite (main_cfg args cfg p HF). cbn zeta.
    unfold setupPubSubClient at 1. rewrite HN, HE. cbn -[consumeMessages].
    destruct (consumeMessages _ _ _ _ _ _ _) as [err w] eqn:HC.
    assert (Ha := f_equal (fun x => acks (snd x)) HC). cbn beta in Ha.
    rewrite consumeMessages_eq in Ha. cbn [snd] in Ha. rewrite run_each_acks in Ha. cbn in Ha.
    exists (map (fun m => (pubsub.ID m, decision Marshal NewReq DoReq cfg m)) deliveries).
    split; [|reflexivity].
    destruct err as [e|]; [|destruct (Close c)]; cbn; congruence.
  - intros Hno. destruct (parseFlags args) as [code|[cfg|e]] eqn:HF.
    + unfold main_thread. rewrite HF. reflexivity.
    + rewrite (main_cfg args cfg p HF). cbn zeta. unfold setupPubSubClient at 1.
      destruct (NewClient (Project cfg)) as [c|e] eqn:HN.
      * destruct (Exists c (Subscription cfg)) as [[|]|e] eqn:HE.
        -- exfalso. apply Hno. eauto.
        -- reflexivity.
        -- reflexivity.
      * reflexivity.
    + unfold main_thread. rewrite HF. reflexivity.
Qed.

Lemma main_thread_clean_logs (args : list string) (p : Process) (cfg : Config) (c : PubSubClient) :
  parseFlags args = FlagsDone (Ok cfg) -> NewClient (Project cfg) = Ok c ->
  Exists c (Subscription cfg) = Ok true ->
  termination = None \/ termination = Some ContextCanceled ->
  exists l, List.length l = List.length deliveries /\
  logs (pworld (snd (thread args p))) =
  (logs (pworld p) ++
   [("Starting Pub/Sub Tester. Project: " ++ Project cfg ++ ", Subscription: " ++
     Subscription cfg ++ ", POST URL: " ++ URL cfg)%string;
    ("Connected to Pub/Sub subscription: " ++ Subscription cfg)%string] ++ l ++
   ["Graceful shutdown complete. Exiting application."%string] ++
   match Close c with
   | Ok _ => []
   | Err e => [("Error closing Pub/Sub client: " ++ Error e)%string]
   end)%list.
Proof.
  intros HF HN HE HT. rewrite (main_cfg args cfg p HF). cbn zeta.
  unfold setupPubSubClient at 1. rewrite HN, HE. cbn -[consumeMessages].
  destruct (consumeMessages _ _ _ _ _ _ _) as [err w] eqn:HC.
  assert (Hf := f_equal fst HC). rewrite consumeMessages_fst in Hf.
  assert (Hl := f_equal (fun x => logs (snd x)) HC). cbn beta in Hl.
  rewrite consumeMessages_eq in Hl. cbn [snd] in Hl.
  match type of Hl with
  | context [run_each _ _ ?W] => destruct (run_each_logs_exact cfg deliveries W) as (l & Hl' & Hn)
  end.
  rewrite Hl' in Hl. cbn in Hl.
  exists l. split; [exact Hn|].
  destruct HT as [HT|HT]; rewrite HT in Hf; cbn in Hf; subst err;
    destruct (Close c); cbn; rewrite <- Hl, <- !app_assoc; reflexivity.
Qed.

Lemma main_thread_fatal (args : list string) (p : Process) (cfg : Config)
    (c : PubSubClient) (e : error) :
  parseFlags args = FlagsDone (Ok cfg) -> NewClient (Project cfg) = Ok c ->
  Exists c (Subscription cfg) = Ok true -> termination = Some e -> e <> ContextCanceled ->
  fst (thread args p) = 1 /\
  opened (snd (thread args p)) = S (opened p) /\ closed (snd (thread args p)) = closed p /\
  exists l, List.length l = List.length deliveries /\
  logs (pworld (snd (thread args p))) =
  (logs (pworld p) ++
   [("Starting Pub/Sub Tester. Project: " ++ Project cfg ++ ", Subscription: " ++
     Subscription cfg ++ ", POST URL: " ++ URL cfg)%string;
    ("Connected to Pub/Sub subscription: " ++ Subscription cfg)%string] ++ l ++
   [("Message consumption error: error receiving messages: " ++ Error e)%string])%list.
Proof.
  intros HF HN HE HT Hne. rewrite (main_cfg args cfg p HF). cbn zeta.
  unfold setupPubSubClient. rewrite HN, HE. cbn -[consumeMessages].
  destruct (consumeMessages _ _ _ _ _ _ _) as [err w] eqn:HC.
  assert (Hf := f_equal fst HC). rewrite consumeMessages_fst, HT in Hf.
  replace (negb (is_Canceled e)) with true in Hf
    by (destruct e; [contradiction|reflexivity|reflexivity]).
  cbn in Hf. subst err.
  assert (Hl := f_equal (fun x => logs (snd x)) HC). cbn beta in Hl.
  rewrite consumeMessages_eq in Hl. cbn [snd] in Hl.
  match type of Hl with
  | context [run_each _ _ ?W] => destruct (run_each_logs_exact cfg deliveries W) as (l & Hl' & Hn)
  end.
  rewrite Hl' in Hl. cbn in Hl. cbn.
  split; [reflexivity|]. split; [reflexivity|]. split; [reflexivity|].
  exists l. split; [exact Hn|].
  rewrite <- Hl, <- !app_assoc. reflexivity.
Qed.

(** The log of a clean run: the start line, the connection line, one
    line per delivered message, the shutdown line and the error of
    [client.Close()] if it fails; the line of [handleShutdown], when it
    gets to log it, comes somewhere after the start line. *)
Theorem main_clean_run_logs (args : list string) (p : Process) (cfg : Config) (c : PubSubClient) :
  parseFlags args = FlagsDone (Ok cfg) -> NewClient (Project cfg) = Ok c ->
  Exists c (Subscription cfg) = Ok true ->
  termination = None \/ termination = Some ContextCanceled ->
  exists l, List.length l = List.length deliveries /\
  let T :=
    (logs (pworld p) ++
     [("Starting Pub/Sub Tester. Project: " ++ Project cfg ++ ", Subscription: " ++
       Subscription cfg ++ ", POST URL: " ++ URL cfg)%string;
      ("Connected to Pub/Sub subscription: " ++ Subscription cfg)%string] ++ l ++
     ["Graceful shutdown complete. Exiting application."%string] ++
     match Close c with
     | Ok _ => []
     | Err e => [("Error closing Pub/Sub client: " ++ Error e)%string]
     end)%list in
  (signal = None -> logs (pworld (snd (run_main args p))) = T) /\
  (logs (pworld (snd (run_main args p))) = T \/
   exists k, signal = Some k /\
   logs (pworld (snd (run_main args p))) =
   (firstn (List.length (logs (pworld p)) + 1 + k) T ++
    handleShutdown_line :: skipn (List.length (logs (pworld p)) + 1 + k) T)%list).
Proof.
  intros HF HN HE HT.
  destruct (main_thread_clean_logs args p cfg c HF HN HE HT) as (l & Hn & Hl).
  exists l. split; [exact Hn|]. cbv zeta.
  destruct (main_thread_logs args p) as [H1 H2]. rewrite Hl in H1, H2.
  split; [exact H1|].
  destruct H2 as [H2|(cfg' & k & _ & Hs & H2)]; [left; exact H2|].
  right. exists k. split; [exact Hs|exact H2].
Qed.

(** When [Receive] fails with an error other than [context.Canceled],
    [main] exits with status 1 after logging the wrapped error, and the
    client stays open. *)
Theorem main_fatal_receive_error (args : list string) (p : Process) (cfg : Config)
    (c : PubSubClient) (e : error) :
  parseFlags args = FlagsDone (Ok cfg) -> NewClient (Project cfg) = Ok c ->
  Exists c (Subscription cfg) = Ok true -> termination = Some e -> e <> ContextCanceled ->
  fst (run_main args p) = 1 /\
  opened (snd (run_main args p)) = S (opened p) /\ closed (snd (run_main args p)) = closed p /\
  exists l, List.length l = List.length deliveries /\
  let T :=
    (logs (pworld p) ++
     [("Starting Pub/Sub Tester. Project: " ++ Project cfg ++ ", Subscription: " ++
       Subscription cfg ++ ", POST URL: " ++ URL cfg)%string;
      ("Connected to Pub/Sub subscription: " ++ Subscription cfg)%string] ++ l ++
     [("Message consumption error: error receiving messages: " ++ Error e)%string])%list in
  (signal = None -> logs (pworld (snd (run_main args p))) = T) /\
  (logs (pworld (snd (run_main args p))) = T \/
   exists k, signal = Some k /\
   logs (pworld (snd (run_main args p))) =
   (firstn (List.length (logs (pworld p)) + 1 + k) T ++
    handleShutdown_line :: skipn (List.length (logs (pworld p)) + 1 + k) T)%list).
Proof.
  intros HF HN HE HT Hne.
  destruct (main_thread_fatal args p cfg c e HF HN HE HT Hne) as (H1 & H2 & H3 & l & Hn & Hl).
  destruct (main_thread_eq args p) as (E1 & E2 & E3 & _). rewrite E1, E2, E3.
  split; [exact H1|]. split; [exact H2|]. split; [exact H3|].
  exists l. split; [exact Hn|]. cbv zeta.
  destruct (main_thread_logs args p) as [G1 G2]. rewrite Hl in G1, G2.
  split; [exact G1|].
  destruct G2 as [G2|(cfg' & k & _ & Hs & G2)]; [left; exact G2|].
  right. exists k. split; [exact Hs|exact G2].
Qed.

End Process.

(** ** Lengths, key order and the read-back of the publish time *)

(** [EncodedLen]: [EncodeToString] writes four characters for each
    started group of three bytes. *)
Theorem EncodeToString_length (src : list byte) :
  String.length (Base64.EncodeToString src) = (4 * ((List.length src + 2) / 3))%nat.
Proof.
  induction src as [src IH] using (induction_ltof1 _ (@List.length byte)).
  unfold ltof in IH.
  destruct src as [|b0 [|b1 [|b2 rest]]]; try reflexivity.
  cbn [Base64.EncodeToString String.length].
  rewrite IH by (cbn; lia). cbn [List.length].
  replace (S (S (S (List.length rest))) + 2)%nat with (1 * 3 + (List.length rest + 2))%nat by lia.
  rewrite Nat.div_add_l by lia. lia.
Qed.

Lemma compare_Gt_flip (x y : string) : String.compare x y = Gt -> String.compare y x <> Gt.
Proof. rewrite String.compare_antisym. destruct (String.compare y x); cbn; congruence. Qed.

Lemma insert_key_sorted (kv : string * string) (kvs : list (string * string)) :
  Sorted key_le kvs -> Sorted key_le (insert_key kv kvs).
Proof.
  induction kvs as [|kv' kvs IH]; intros H; cbn.
  - repeat constructor.
  - destruct (String.compare (fst kv) (fst kv')) eqn:E.
    + constructor; [exact H|]. constructor. unfold key_le. congruence.
    + constructor; [exact H|]. constructor. unfold key_le. congruence.
    + apply Sorted_inv in H as [Hs Hh]. constructor; [apply IH, Hs|].
      destruct kvs as [|kv'' kvs']; cbn.
      * constructor. apply compare_Gt_flip, E.
      * destruct (String.compare (fst kv) (fst kv'')); constructor;
          first [apply compare_Gt_flip, E | inversion Hh; assumption].
Qed.

(** [json.Marshal] writes the members of the [attributes] object in
    increasing order of their keys, whatever the map. *)
Theorem transformMessage_attributes_sorted (msg : pubsub.Message) (cfg : Config) :
  match message_field "attributes" (marshal (transformMessage msg cfg)) with
  | Some (JObject ms) => Sorted (fun a b => String.compare (fst a) (fst b) <> Gt) ms
  | Some JNull => pubsub.Attributes msg = None
  | _ => False
  end.
Proof.
  unfold message_field. cbn.
  destruct (pubsub.Attributes msg) as [kvs|]; [|reflexivity].
  cbn. assert (Hs : Sorted key_le (sort_keys kvs)).
  { unfold sort_keys. induction kvs as [|kv kvs IH]; cbn; [constructor|].
    apply insert_key_sorted, IH. }
  induction Hs as [|kv l Hs IH Hh]; cbn; constructor; [exact IH|].
  destruct Hh as [|kv' l' Hr]; constructor. exact Hr.
Qed.

(** The publish time can be read back from the envelope: two valid
    times written as the same RFC 3339 string have the same date and
    the same clock to the second. *)
Theorem Format_RFC3339_fields (t1 t2 : GoTime.Time) :
  GoTime.valid t1 -> GoTime.valid t2 ->
  GoTime.Format_RFC3339 t1 = GoTime.Format_RFC3339 t2 ->
  GoTime.year t1 = GoTime.year t2 /\ GoTime.month t1 = GoTime.month t2 /\
  GoTime.day t1 = GoTime.day t2 /\ GoTime.hour t1 = GoTime.hour t2 /\
  GoTime.minute t1 = GoTime.minute t2 /\ GoTime.second t1 = GoTime.second t2.
Proof.
  intros (Y1 & M1 & D1 & h1 & m1 & s1 & _) (Y2 & M2 & D2 & h2 & m2 & s2 & _) H.
  pose proof (days_in_month_le (GoTime.year t1) (GoTime.month t1)).
  pose proof (days_in_month_le (GoTime.year t2) (GoTime.month t2)).
  apply (f_equal list_ascii_of_string) in H.
  unfold GoTime.Format_RFC3339 in H. rewrite !list_ascii_of_string_of_list_ascii in H.
  unfold GoTime.appendFormatRFC3339 in H.
  rewrite !appendInt4, !(appendInt2 (GoTime.month _)), !(appendInt2 (GoTime.day _)),
    !(appendInt2 (GoTime.hour _)), !(appendInt2 (GoTime.minute _)),
    !(appendInt2 (GoTime.second _)) in H by lia.
  cbn [app] in H.
  injection H as Ha Hb Hc Hd He Hf Hg Hh Hi Hj Hk Hl Hm Hn _.
  rewrite <- (num4_utod (GoTime.year t1)), <- (num4_utod (GoTime.year t2)),
    <- (num2_utod (GoTime.month t1)), <- (num2_utod (GoTime.month t2)),
    <- (num2_utod (GoTime.day t1)), <- (num2_utod (GoTime.day t2)),
    <- (num2_utod (GoTime.hour t1)), <- (num2_utod (GoTime.hour t2)),
    <- (num2_utod (GoTime.minute t1)), <- (num2_utod (GoTime.minute t2)),
    <- (num2_utod (GoTime.second t1)), <- (num2_utod (GoTime.second t2)) by lia.
  rewrite Ha, Hb, Hc, Hd, He, Hf, Hg, Hh, Hi, Hj, Hk, Hl, Hm, Hn.
  repeat split; reflexivity.
Qed.

(** ** The theorems with hypotheses at concrete inputs *)

Lemma Flag_parse_forms_witness :
  In "url" ["project"; "subscription"; "url"] /\ Flag.get "url" Flag.defaults <> None /\
  Flag.parse [("-" ++ "url" ++ "=" ++ "http://h")%string] Flag.defaults =
    Flag.parse [] (Flag.set "url" "http://h" Flag.defaults) /\
  Flag.parse [("--" ++ "url" ++ "=" ++ "http://h")%string] Flag.defaults =
    Flag.parse [] (Flag.set "url" "http://h" Flag.defaults) /\
  Flag.parse [("-" ++ "url")%string; "http://h"] Flag.defaults =
    Flag.parse [] (Flag.set "url" "http://h" Flag.defaults) /\
  Flag.parse [("--" ++ "url")%string; "http://h"] Flag.defaults =
    Flag.parse [] (Flag.set "url" "http://h" Flag.defaults).
Proof.
  split; [simpl; auto|]. split; [simpl; discriminate|].
  apply (Flag_parse_forms "url" "http://h" [] Flag.defaults); [simpl; auto | simpl; discriminate].
Defined.

Lemma Flag_parse_last_wins_witness :
  In "project" program_flags /\
  Forall (fun o => In (snd (fst o)) program_flags)
    ([(EqLong, "url", "http://h")] ++ [(SepShort, "subscription", "s")])%list /\
  parseFlags (occurrences [(EqLong, "url", "http://h")] ++ occurrence SepLong "project" "a" ++
              occurrences [(SepShort, "subscription", "s")] ++ occurrence EqShort "project" "b" ++
              ["x"])%list =
  parseFlags (occurrences [(EqLong, "url", "http://h")] ++
              occurrences [(SepShort, "subscription", "s")] ++ occurrence EqShort "project" "b" ++
              ["x"])%list /\
  parseFlags (occurrences [(EqLong, "url", "http://h")] ++
              occurrences [(SepShort, "subscription", "s")] ++ occurrence EqShort "project" "b" ++
              ["x"])%list =
  FlagsDone (Ok {| Project := "b"; Subscription := "s"; URL := "http://h" |}).
Proof.
  assert (Hin : In "project" program_flags) by (simpl; auto).
  assert (Hall : Forall (fun o => In (snd (fst o)) program_flags)
                   ([(EqLong, "url", "http://h")] ++ [(SepShort, "subscription", "s")])%list)
    by (repeat constructor; simpl; auto).
  split; [exact Hin|]. split; [exact Hall|]. split; [|vm_compute; reflexivity].
  apply (Flag_parse_last_wins "project" "a" "b" SepLong EqShort
           [(EqLong, "url", "http://h")] [(SepShort, "subscription", "s")] ["x"] Hin Hall).
Defined.

Lemma parseFlags_exits_witness :
  Forall (fun o => In (snd (fst o)) program_flags) [(EqShort, "project", "p")] /\
  parseFlags (occurrences [(EqShort, "project", "p")] ++ "-h" :: ["x"]) = FlagsExit 0 /\
  parseFlags (occurrences [(EqShort, "project", "p")] ++ "-help" :: ["x"]) = FlagsExit 0 /\
  parseFlags (occurrences [(EqShort, "project", "p")] ++ "--help" :: ["x"]) = FlagsExit 0 /\
  (In "url" program_flags ->
   parseFlags (occurrences [(EqShort, "project", "p")] ++ [("-" ++ "url")%string]) = FlagsExit 2 /\
   parseFlags (occurrences [(EqShort, "project", "p")] ++ [("--" ++ "url")%string]) = FlagsExit 2).
Proof.
  assert (H : Forall (fun o => In (snd (fst o)) program_flags) [(EqShort, "project", "p")])
    by (repeat constructor; simpl; auto).
  split; [exact H|].
  apply (parseFlags_exits "url" [(EqShort, "project", "p")] ["x"] H).
Defined.

Lemma main_clean_run_logs_witness :
  let run := main json_Marshal newRequest_ok do_200 unit newClient_ok exists_yes close_ok
               [hello_msg] None (Some 1%nat) args_pxy start in
  parseFlags args_pxy = FlagsDone (Ok cfg_pxy) /\
  exists l, List.length l = List.length [hello_msg] /\
  let T :=
    (logs (pworld start) ++
     [("Starting Pub/Sub Tester. Project: " ++ Project cfg_pxy ++ ", Subscription: " ++
       Subscription cfg_pxy ++ ", POST URL: " ++ URL cfg_pxy)%string;
      ("Connected to Pub/Sub subscription: " ++ Subscription cfg_pxy)%string] ++ l ++
     ["Graceful shutdown complete. Exiting application."%string] ++
     match close_ok tt with
     | Ok _ => []
     | Err e => [("Error closing Pub/Sub client: " ++ Error e)%string]
     end)%list in
  (Some 1%nat = None -> logs (pworld (snd run)) = T) /\
  (logs (pworld (snd run)) = T \/
   exists k, Some 1%nat = Some k /\
   logs (pworld (snd run)) =
   (firstn (List.length (logs (pworld start)) + 1 + k) T ++
    handleShutdown_line :: skipn (List.length (logs (pworld start)) + 1 + k) T)%list).
Proof.
  cbv zeta. split; [reflexivity|].
  apply (main_clean_run_logs json_Marshal newRequest_ok do_200 unit newClient_ok exists_yes
           close_ok [hello_msg] None (Some 1%nat) args_pxy start cfg_pxy tt);
    [reflexivity | reflexivity | reflexivity | left; reflexivity].
Defined.

Lemma main_fatal_receive_error_witness :
  let run := main json_Marshal newRequest_ok do_200 unit newClient_ok exists_yes close_ok
               [hello_msg] (Some (ErrorString "boom")) None args_pxy start in
  parseFlags args_pxy = FlagsDone (Ok cfg_pxy) /\
  fst run = 1 /\ opened (snd run) = S (opened start) /\ closed (snd run) = closed start /\
  exists l, List.length l = List.length [hello_msg] /\
  let T :=
    (logs (pworld start) ++
     [("Starting Pub/Sub Tester. Project: " ++ Project cfg_pxy ++ ", Subscription: " ++
       Subscription cfg_pxy ++ ", POST URL: " ++ URL cfg_pxy)%string;
      ("Connected to Pub/Sub subscription: " ++ Subscription cfg_pxy)%string] ++ l ++
     [("Message consumption error: error receiving messages: " ++
       Error (ErrorString "boom"))%string])%list in
  (@None nat = None -> logs (pworld (snd run)) = T) /\
  (logs (pworld (snd run)) = T \/
   exists k, @None nat = Some k /\
   logs (pworld (snd run)) =
   (firstn (List.length (logs (pworld start)) + 1 + k) T ++
    handleShutdown_line :: skipn (List.length (logs (pworld start)) + 1 + k) T)%list).
Proof.
  cbv zeta. split; [reflexivity|].
  apply (main_fatal_receive_error json_Marshal newRequest_ok do_200 unit newClient_ok exists_yes
           close_ok [hello_msg] (Some (ErrorString "boom")) None args_pxy start cfg_pxy tt
           (ErrorString "boom"));
    [reflexivity | reflexivity | reflexivity | reflexivity | discriminate].
Defined.

Lemma Format_RFC3339_fields_witness :
  let t1 := pubsub.PublishTime hello_msg in
  let t2 := pubsub.PublishTime hello_msg_late in
  GoTime.valid t1 /\ GoTime.valid t2 /\ GoTime.Format_RFC3339 t1 = GoTime.Format_RFC3339 t2 /\
  GoTime.year t1 = GoTime.year t2 /\ GoTime.month t1 = GoTime.month t2 /\
  GoTime.day t1 = GoTime.day t2 /\ GoTime.hour t1 = GoTime.hour t2 /\
  GoTime.minute t1 = GoTime.minute t2 /\ GoTime.second t1 = GoTime.second t2.
Proof.
  cbv zeta.
  assert (H1 : GoTime.valid (pubsub.PublishTime hello_msg))
    by (unfold GoTime.valid; cbn; lia).
  assert (H2 : GoTime.valid (pubsub.PublishTime hello_msg_late))
    by (unfold GoTime.valid; cbn; lia).
  assert (H3 : GoTime.Format_RFC3339 (pubsub.PublishTime hello_msg) =
               GoTime.Format_RFC3339 (pubsub.PublishTime hello_msg_late)) by reflexivity.
  split; [exact H1|]. split; [exact H2|]. split; [exact H3|].
  apply (Format_RFC3339_fields _ _ H1 H2 H3).
Defined.
